(** * final.py: the NIFTY-50 fetcher and analyzer

    A shallow embedding of the two functions of [final.py]:

    - [scrape_nifty50_data] (the Fetcher) is an effectful procedure.  It is
      embedded in a state-and-exception monad over the file system and the
      standard output; the network and the library routines it calls
      ([requests], [gzip], [json], [open]) are collected in an environment
      record.
    - [analyze_and_visualize] (the Analyzer) is embedded as list functions
      over data-frame rows, written against a small arithmetic interface.
      Its instances for the script are IEEE binary64, for [float64]
      columns, and the arithmetic of numpy on [int64] and [float64]
      columns, for frames of either dtype.

    Definitions come first (modules [Fetcher], [Analyzer] and [Main], the
    last with the main block of the script), the properties follow (modules
    [FetcherProps], [AnalyzerProps], [FetcherMore], [AnalyzerMore] and
    [MainProps]). *)

From Stdlib Require Import Floats ZArith QArith Lqa Ascii String Strings.Byte.
From stdpp Require Import gmap strings list fin_maps pretty sorting.

#[local] Set Warnings "-register-all".
Local Open Scope Z_scope.

(* ===================================================================== *)
(** * Part I. The Fetcher: [scrape_nifty50_data]                         *)
(* ===================================================================== *)

Module Fetcher.

(** ** Python values, exceptions *)

(** Values produced by [json.loads] / [response.json()]. *)
Inductive pyval :=
| PNone
| PBool (b : bool)
| PInt (z : Z)
| PFloat (f : float)
| PStr (s : string)
| PList (l : list pyval)
| PDict (d : gmap string pyval).

(** The exceptions the procedure can meet, each with its message. *)
Inductive exn :=
| RequestException (msg : string)      (* requests: ConnectionError, Timeout, ... *)
| RequestsJSONDecodeError (msg : string) (* requests.exceptions.JSONDecodeError *)
| JSONDecodeError (msg : string)       (* json.JSONDecodeError *)
| UnicodeDecodeError (msg : string)
| UnicodeEncodeError (msg : string)
| ValueError (msg : string)
| BadGzipFile (msg : string)           (* gzip.BadGzipFile, an OSError *)
| OSError (msg : string)
| EOFError (msg : string)
| ZlibError (msg : string)             (* zlib.error *)
| AttributeError (msg : string)
| TypeError (msg : string)
| KeyboardInterrupt.                   (* a BaseException, not an Exception *)

(** [isinstance(e, requests.exceptions.RequestException)] *)
Definition isinstance_RequestException (e : exn) : bool :=
  match e with
  | RequestException _ | RequestsJSONDecodeError _ => true
  | _ => false
  end.

(** [isinstance(e, ValueError)] *)
Definition isinstance_ValueError (e : exn) : bool :=
  match e with
  | RequestsJSONDecodeError _ | JSONDecodeError _ | UnicodeDecodeError _
  | UnicodeEncodeError _ | ValueError _ => true
  | _ => false
  end.

(** [isinstance(e, Exception)] *)
Definition isinstance_Exception (e : exn) : bool :=
  match e with
  | KeyboardInterrupt => false
  | _ => true
  end.

(** Outcome of a library call: a value or a raised exception. *)
Inductive result (A : Type) :=
| Ok (a : A)
| Raise (e : exn).
Arguments Ok {A} a.
Arguments Raise {A} e.

#[global] Instance result_ret : MRet result := @Ok.
#[global] Instance result_bind : MBind result := fun A B f r =>
  match r with
  | Ok a => f a
  | Raise e => Raise e
  end.

(** [try: r except C: handler] for a call without side effects. *)
Definition result_try {A} (r : result A) (catches : exn -> bool)
    (handler : exn -> result A) : result A :=
  match r with
  | Raise e => if catches e then handler e else Raise e
  | Ok a => Ok a
  end.

(** ** The environment: network and library routines *)

(** What the script reads of a [requests.Response]. *)
Record Response := mkResponse {
  status_code : Z;
  headers : string;
  text : string;
  content : list byte;
  json : result pyval          (* outcome of [response.json()] *)
}.

Record Env := mkEnv {
  (** [session.get(url, timeout=t)] *)
  session_get : string -> Z -> result Response;
  (** the DEFLATE stage of [gzip.decompress], after the header check *)
  inflate : list byte -> result (list byte);
  (** [bytes.decode('utf-8')] *)
  decode_utf8 : list byte -> result string;
  (** [json.loads] *)
  json_loads : string -> result pyval;
  (** [str()] on numbers, booleans, lists and dicts *)
  py_str : pyval -> string;
  (** [open(name, mode="w", ...)]: [Some e] when it raises [e] *)
  open_w : string -> option exn;
  (** whether a text holds a lone surrogate, a code point that UTF-8 cannot
      encode (JSON strings may carry one); asked of texts with characters
      outside ASCII only, see [encodable] *)
  lone_surrogate : string -> bool
}.

(** [gzip.decompress]: an empty input has no member and yields no bytes;
    a first member must start with the magic number 1f 8b. *)
Definition gzip_decompress (env : Env) (data : list byte) : result (list byte) :=
  match data with
  | [] => Ok []
  | x1f :: x8b :: _ => inflate env data
  | _ => Raise (BadGzipFile "Not a gzipped file")
  end.

(** ** State, diagnostics and the monad *)

(** The lines the procedure prints, one constructor per [print] call. *)
Inductive Diag :=
| ErrHomepageStatus (code : Z)      (* line 39 *)
| ErrHomepageOpen (e : exn)         (* line 42 *)
| RespStatus (code : Z)             (* line 51 *)
| RespHeaders (h : string)          (* line 52 *)
| ErrHttp (code : Z)                (* line 55 *)
| RespContent (t : string)          (* line 56 *)
| ErrFetch (url : string) (e : exn) (* line 66 *)
| NoStockData                       (* line 72 *)
| DataSaved (name : string)         (* line 115 *)
| ErrCsv (e : exn).                 (* line 117 *)

Record State := mkState {
  fs : gmap string string;       (* file name to file content *)
  stdout : list Diag
}.

(** How a block of statements ends: it falls through with a value, executes
    [return], or raises. *)
Inductive flow (A : Type) :=
| Normal (a : A)
| Return_
| Raised (e : exn).
Arguments Normal {A} a.
Arguments Return_ {A}.
Arguments Raised {A} e.

Definition M (A : Type) : Type := State -> flow A * State.

#[global] Instance M_ret : MRet M := fun A a s => (Normal a, s).
#[global] Instance M_bind : MBind M := fun A B f m s =>
  match m s with
  | (Normal a, s') => f a s'
  | (Return_, s') => (Return_, s')
  | (Raised e, s') => (Raised e, s')
  end.

Definition raise {A} (e : exn) : M A := fun s => (Raised e, s).
Definition return_ {A} : M A := fun s => (Return_, s).
Definition lift {A} (r : result A) : M A :=
  match r with
  | Ok a => mret a
  | Raise e => raise e
  end.

Definition print (d : Diag) : M unit := fun s =>
  (Normal tt, {| fs := fs s; stdout := stdout s ++ [d] |}).

(** [time.sleep]: only delays, no effect on the state. *)
Definition sleep (seconds : Z) : M unit := mret tt.

(** [try: body except C as e: handler e] where [catches] decides
    [isinstance(e, C)]. *)
Definition try_except {A} (body : M A) (catches : exn -> bool)
    (handler : exn -> M A) : M A := fun s =>
  match body s with
  | (Raised e, s') => if catches e then handler e s' else (Raised e, s')
  | r => r
  end.

(** ** Files *)

(** [open(name, "w")] truncates or creates the file. *)
Definition file_open_w (env : Env) (name : string) : M unit := fun s =>
  match open_w env name with
  | Some e => (Raised e, s)
  | None => (Normal tt, {| fs := <[name := EmptyString]> (fs s); stdout := stdout s |})
  end.

(** The characters of a string stand for the code points of a Python
    [str]: those below 128 for themselves, the others for code points
    outside ASCII. *)
Fixpoint is_ascii (s : string) : bool :=
  match s with
  | EmptyString => true
  | String (Ascii _ _ _ _ _ _ _ b7) s' => negb b7 && is_ascii s'
  end.

(** [text.encode('utf-8')] succeeds: always on ASCII, and otherwise unless
    the text holds a lone surrogate. *)
Definition encodable (env : Env) (text : string) : bool :=
  is_ascii text || negb (lone_surrogate env text).

(** [csv_file.write(data)] on the file opened with [encoding="utf-8"]: the
    text is encoded as a whole, then appended; a text that cannot be
    encoded raises [UnicodeEncodeError] and nothing of it is written.  Once
    the file is open the disk is taken to accept what is written. *)
Definition file_write (env : Env) (name : string) (data : string) : M unit :=
  fun s =>
    if encodable env data
    then (Normal tt,
          {| fs := alter (fun c => c +:+ data) name (fs s);
             stdout := stdout s |})
    else (Raised (UnicodeEncodeError "surrogates not allowed"), s).

(** ** The csv module *)

Definition quotechar : ascii := "034"%char.
Definition delimiter : ascii := ","%char.
Definition CR : ascii := "013"%char.
Definition LF : ascii := "010"%char.
Definition lineterminator : string := String CR (String LF EmptyString).

Fixpoint needs_quoting (s : string) : bool :=
  match s with
  | EmptyString => false
  | String c s' =>
      Ascii.eqb c delimiter || Ascii.eqb c quotechar
      || Ascii.eqb c CR || Ascii.eqb c LF || needs_quoting s'
  end.

Fixpoint double_quotes (s : string) : string :=
  match s with
  | EmptyString => EmptyString
  | String c s' =>
      if Ascii.eqb c quotechar
      then String quotechar (String quotechar (double_quotes s'))
      else String c (double_quotes s')
  end.

(** One field under [QUOTE_MINIMAL]. *)
Definition csv_quote (s : string) : string :=
  if needs_quoting s
  then String quotechar (double_quotes s +:+ String quotechar EmptyString)
  else s.

(** The text the writer gives a value: [None] is empty, a string is itself,
    anything else goes through [str()]. *)
Definition csv_text (env : Env) (v : pyval) : string :=
  match v with
  | PNone => EmptyString
  | PStr s => s
  | _ => py_str env v
  end.

Definition csv_field (env : Env) (v : pyval) : string := csv_quote (csv_text env v).

Definition join_fields (cells : list string) : string :=
  String.concat (String delimiter EmptyString) cells.

(** [csv.writer.writerow]: the record for a list of values. *)
Definition csv_record (env : Env) (values : list pyval) : string :=
  join_fields (csv_field env <$> values) +:+ lineterminator.

(** [DictWriter._dict_to_list]: keys outside [fieldnames] are an error
    ([extrasaction='raise']), missing keys take [restval = ""]. *)
Definition dict_to_list (fieldnames : list string) (rowdict : gmap string pyval)
    : result (list pyval) :=
  if bool_decide (dom rowdict ⊆ (list_to_set fieldnames : gset string))
  then Ok ((fun k => default (PStr EmptyString) (rowdict !! k)) <$> fieldnames)
  else Raise (ValueError "dict contains fields not in fieldnames").

Definition writeheader (env : Env) (name : string) (fieldnames : list string) : M unit :=
  file_write env name (csv_record env (PStr <$> fieldnames)).

Definition writerow (env : Env) (name : string) (fieldnames : list string)
    (rowdict : gmap string pyval) : M unit :=
  values ← lift (dict_to_list fieldnames rowdict);
  file_write env name (csv_record env values).

(** ** Operations on Python values *)

(** [v.get(key, dflt)]: only dicts have the method. *)
Definition py_get (v : pyval) (key : string) (dflt : pyval) : result pyval :=
  match v with
  | PDict d => Ok (default dflt (d !! key))
  | _ => Raise (AttributeError "object has no attribute 'get'")
  end.

(** Truth value, as tested by [if not v]. *)
Definition truthy (v : pyval) : bool :=
  match v with
  | PNone => false
  | PBool b => b
  | PInt z => negb (z =? 0)
  | PFloat f => negb (PrimFloat.eqb f 0%float)
  | PStr s => negb (String.eqb s EmptyString)
  | PList l => match l with [] => false | _ => true end
  | PDict d => match map_to_list d with [] => false | _ => true end
  end.

Fixpoint chars (s : string) : list pyval :=
  match s with
  | EmptyString => []
  | String c s' => PStr (String c EmptyString) :: chars s'
  end.

(** The items [for x in v] runs through.  A dict yields its keys (all of
    them strings; their order is that of the key encoding). *)
Definition py_iter (v : pyval) : result (list pyval) :=
  match v with
  | PList l => Ok l
  | PStr s => Ok (chars s)
  | PDict d => Ok (PStr <$> (map_to_list d).*1)
  | _ => Raise (TypeError "object is not iterable")
  end.

Fixpoint for_each {A} (xs : list A) (body : A -> M unit) : M unit :=
  match xs with
  | [] => mret tt
  | x :: xs' => body x;; for_each xs' body
  end.

(** ** The procedure *)

Definition homepage_url : string := "https://www.nseindia.com".
Definition api_url : string :=
  "https://www.nseindia.com/api/equity-stockIndices?index=NIFTY%2050".

(** Lines 76-91. *)
Definition csv_headers : list string :=
  [ "symbol"; "open"; "dayHigh"; "dayLow"; "lastPrice"; "previousClose";
    "change"; "pChange"; "totalTradedVolume"; "totalTradedValue";
    "yearHigh"; "yearLow"; "lastUpdateTime"; "perChange30d" ].

(** The keys of the dict literal of lines 98-113, in the order written. *)
Definition row_keys : list string :=
  [ "symbol"; "open"; "dayHigh"; "dayLow"; "lastPrice"; "previousClose";
    "change"; "pChange"; "totalTradedVolume"; "totalTradedValue";
    "yearHigh"; "yearLow"; "lastUpdateTime"; "perChange30d" ].

(** Lines 98-113: [{k: stock.get(k, "") for each key}]. *)
Definition build_row (stock : pyval) : result (gmap string pyval) :=
  items ← mapM (fun k => v ← py_get stock k (PStr EmptyString); mret (k, v)) row_keys;
  mret (list_to_map items).

(** Lines 36-43: the priming request. *)
Definition prime_session (env : Env) : M unit :=
  try_except
    (homepage_response ← lift (session_get env homepage_url 5);
     if bool_decide (status_code homepage_response ≠ 200)
     then print (ErrHomepageStatus (status_code homepage_response));; return_
     else mret tt)
    isinstance_RequestException
    (fun e => print (ErrHomepageOpen e);; return_).

(** Lines 59-64: the body is parsed as JSON; on a [ValueError] it is
    decompressed, decoded and parsed again.  No state is touched. *)
Definition parse_body (env : Env) (response : Response) : result pyval :=
  result_try
    (json response)
    isinstance_ValueError
    (fun _ =>
       data_bytes ← gzip_decompress env (content response);
       data_text ← decode_utf8 env data_bytes;
       json_loads env data_text).

(** Lines 49-67: the data request and the parse of its body. *)
Definition fetch_data (env : Env) (url : string) : M pyval :=
  try_except
    (response ← lift (session_get env url 10);
     print (RespStatus (status_code response));;
     print (RespHeaders (headers response));;
     if bool_decide (status_code response ≠ 200)
     then print (ErrHttp (status_code response));;
          print (RespContent (text response));;
          return_
     else lift (parse_body env response))
    isinstance_RequestException
    (fun e => print (ErrFetch url e);; return_).

(** Lines 98-114: the body of the loop over the row list. *)
Definition row_step (env : Env) (csv_filename : string) (stock : pyval) : M unit :=
  row ← lift (build_row stock);
  writerow env csv_filename csv_headers row.

(** Lines 93-117: the write of the file.  Leaving the [with] block closes
    the file, also when an exception passes through it, so what was
    written up to then is on disk. *)
Definition write_csv (env : Env) (csv_filename : string) (stock_data_list : pyval)
    : M unit :=
  try_except
    (file_open_w env csv_filename;;
     writeheader env csv_filename csv_headers;;
     stocks ← lift (py_iter stock_data_list);
     for_each stocks (row_step env csv_filename);;
     print (DataSaved csv_filename))
    isinstance_Exception
    (fun e => print (ErrCsv e)).

Definition scrape_nifty50_data (env : Env) (csv_filename : string) : M unit :=
  let url := api_url in
  prime_session env;;
  sleep 1;;
  data ← fetch_data env url;
  stock_data_list ← lift (py_get data "data" (PList []));
  if negb (truthy stock_data_list)
  then print NoStockData;; return_
  else write_csv env csv_filename stock_data_list.

(** What the caller of a procedure sees: it came back, or an exception
    escaped it. *)
Inductive Outcome :=
| Returned
| Escaped (e : exn).

Definition call (m : M unit) (s : State) : Outcome * State :=
  match m s with
  | (Raised e, s') => (Escaped e, s')
  | (_, s') => (Returned, s')
  end.

(** ** Reference points for the statements *)

(** The header record the writer emits for [csv_headers]. *)
Definition header_line : string :=
  "symbol,open,dayHigh,dayLow,lastPrice,previousClose,change,pChange,totalTradedVolume,totalTradedValue,yearHigh,yearLow,lastUpdateTime,perChange30d"
  +:+ lineterminator.

(** The column order as the data model of the specification lists it,
    and the header record that order would give. *)
Definition data_model_columns : list string :=
  [ "symbol"; "open"; "dayHigh"; "dayLow"; "lastPrice"; "previousClose";
    "change"; "pChange"; "totalTradedVolume"; "totalTradedValue";
    "yearHigh"; "yearLow"; "perChange30d"; "lastUpdateTime" ].
Definition data_model_header_line : string :=
  join_fields data_model_columns +:+ lineterminator.

(** The fourteen schema fields of one object, absent ones as [""]. *)
Definition project (d : gmap string pyval) : list pyval :=
  (fun k => default (PStr EmptyString) (d !! k)) <$> csv_headers.

(** Concatenation of the records of a file. *)
Definition records (lines : list string) : string :=
  foldr String.append EmptyString lines.

(** The state [s] after the lines [out] were printed. *)
Definition printed (s : State) (out : list Diag) : State :=
  {| fs := fs s; stdout := stdout s ++ out |}.

(** A state in which the file [name] holds [text]. *)
Definition holding (name text : string) (fs0 : gmap string string)
    (out : list Diag) : State :=
  {| fs := <[name := text]> fs0; stdout := out |}.

(** ** Sample environments *)

Definition sample_str (v : pyval) : string :=
  match v with
  | PInt z => pretty z
  | PBool true => "True"
  | PBool false => "False"
  | _ => "?"
  end.

(** Two servers behind [session.get]: the site root and the API. *)
Definition serve (home api : result Response) : string -> Z -> result Response :=
  fun url _ => if String.eqb url homepage_url then home else api.

(** An environment whose body is never a gzip stream, whose disk accepts
    every [open] and whose texts have no lone surrogate. *)
Definition sample_env (home api : result Response) : Env :=
  {| session_get := serve home api;
     inflate := fun _ => Raise (ZlibError "invalid block type");
     decode_utf8 := fun _ => Raise (UnicodeDecodeError "invalid start byte");
     json_loads := fun _ => Raise (JSONDecodeError "Expecting value");
     py_str := sample_str;
     open_w := fun _ => None;
     lone_surrogate := fun _ => false |}.

Definition page (code : Z) : Response :=
  {| status_code := code; headers := "{}"; text := "<html>";
     content := [x3c; x68; x74; x6d; x6c; x3e];
     json := Raise (RequestsJSONDecodeError "Expecting value") |}.

Definition api_reply (v : pyval) : Response :=
  {| status_code := 200; headers := "{}"; text := "{...}"; content := [];
     json := Ok v |}.

Definition payload (rows : list pyval) : pyval := PDict {[ "data" := PList rows ]}.

Definition tcs : gmap string pyval :=
  <["symbol" := PStr "TCS"]> (<["open" := PInt 3500]>
    (<["lastUpdateTime" := PStr "03-Nov-2026 15:30:00"]> ∅)).
Definition infy : gmap string pyval := {[ "symbol" := PStr "INFY, Ltd" ]}.

(** Both requests succeed; the payload has two objects. *)
Definition env_ok : Env :=
  sample_env (Ok (page 200)) (Ok (api_reply (payload [PDict tcs; PDict infy]))).


(** The API answers 200 with an HTML page. *)
Definition env_html : Env := sample_env (Ok (page 200)) (Ok (page 200)).

(** The site root answers 403. *)
Definition env_forbidden : Env :=
  sample_env (Ok (page 403)) (Ok (api_reply (payload [PDict tcs]))).

Definition target : string := "nifty50_data.csv".

(** A disk that already holds a file from an earlier run. *)
Definition disk_with_old_file : State :=
  {| fs := {[ target := "symbol,open" ]}; stdout := [] |}.

Definition empty_disk : State := {| fs := ∅; stdout := [] |}.

(** The file a run in [env_ok] writes. *)
Definition sample_file : string :=
  header_line
  +:+ "TCS,3500,,,,,,,,,,,03-Nov-2026 15:30:00," +:+ lineterminator
  +:+ String quotechar ("INFY, Ltd" +:+ String quotechar ",,,,,,,,,,,,,")
  +:+ lineterminator.


(** ** Further reference points and samples *)

(** Two objects that give the same text in every column of the schema. *)
Definition same_cells (env : Env) (o1 o2 : gmap string pyval) : Prop :=
  ∀ k, k ∈ csv_headers →
    csv_text env (default (PStr EmptyString) (o1 !! k))
    = csv_text env (default (PStr EmptyString) (o2 !! k)).

(** A request that answers with a status other than 200 or raises a
    [RequestException]. *)
Definition request_fails (env : Env) (url : string) (timeout : Z) : Prop :=
  (∃ r, session_get env url timeout = Ok r ∧ status_code r ≠ 200)
  ∨ (∃ e, session_get env url timeout = Raise e
          ∧ isinstance_RequestException e = true).

(** The priming request fails, or it succeeds and the data request fails. *)
Definition fetch_fails (env : Env) : Prop :=
  request_fails env homepage_url 5
  ∨ ((∃ r, session_get env homepage_url 5 = Ok r ∧ status_code r = 200)
     ∧ request_fails env api_url 10).

(** The API answers 503. *)
Definition env_api_down : Env := sample_env (Ok (page 200)) (Ok (page 503)).

(** The payload is an object without ["data"]. *)
Definition env_no_rows : Env :=
  sample_env (Ok (page 200)) (Ok (api_reply (PDict ∅))).

(** The payload is a JSON array. *)
Definition env_list_payload : Env :=
  sample_env (Ok (page 200)) (Ok (api_reply (PList []))).

(** The priming request is interrupted from the keyboard. *)
Definition env_interrupted : Env :=
  sample_env (Raise KeyboardInterrupt) (Ok (page 200)).


(** As [env_ok], on a disk that refuses every [open]. *)
Definition env_readonly : Env :=
  {| session_get := session_get env_ok;
     inflate := inflate env_ok;
     decode_utf8 := decode_utf8 env_ok;
     json_loads := json_loads env_ok;
     py_str := py_str env_ok;
     open_w := fun _ => Some (OSError "Permission denied");
     lone_surrogate := lone_surrogate env_ok |}.




(** [infy] with a null field and a field outside the schema. *)
Definition infy_padded : gmap string pyval :=
  <["series" := PStr "EQ"]> (<["open" := PNone]> infy).

End Fetcher.

(* ===================================================================== *)
(** * Part II. The Analyzer: [analyze_and_visualize]                     *)
(* ===================================================================== *)

Module Analyzer.

(** ** Arithmetic of the numeric columns *)

(** The operations the script applies to column values.  pandas holds a
    coerced column as binary64 ([float64]) as soon as one of its cells has
    a decimal point or is missing, and as [int64] when every cell is an
    integer.  Instance [binary64] below is the arithmetic of the script on
    [float64] columns, instance [pandas] its arithmetic on columns of
    either dtype.  Instance [exact] interprets the same formulas over the
    rationals, without rounding. *)
Class Numeric (A : Type) := {
  num_mul : A -> A -> A;
  num_sub : A -> A -> A;
  num_div : A -> A -> A;
  num_leb : A -> A -> bool;
  num_isna : A -> bool;           (* [pd.isna] *)
  num_na : A;                     (* the missing value *)
  lit_0_70 : A;                   (* the literal [0.70] *)
  lit_1_20 : A;                   (* the literal [1.20] *)
  lit_100 : A                     (* the literal [100] *)
}.

(** IEEE 754 binary64; the two decimal literals are the nearest doubles. *)
#[global] Instance binary64 : Numeric float := {|
  num_mul := PrimFloat.mul;
  num_sub := PrimFloat.sub;
  num_div := PrimFloat.div;
  num_leb := PrimFloat.leb;
  num_isna := PrimFloat.is_nan;
  num_na := nan;
  lit_0_70 := 0x1.6666666666666p-1%float;
  lit_1_20 := 0x1.3333333333333p+0%float;
  lit_100 := 100%float
|}.

(** Rationals with a missing value; a division by zero is missing. *)
#[global] Instance exact : Numeric (option Q) := {|
  num_mul x y := a ← x; b ← y; Some (a * b)%Q;
  num_sub x y := a ← x; b ← y; Some (a - b)%Q;
  num_div x y := a ← x; b ← y; if Qeq_bool b 0 then None else Some (a / b)%Q;
  num_leb x y :=
    match x, y with
    | Some a, Some b => Qle_bool a b
    | _, _ => false
    end;
  num_isna x := match x with None => true | Some _ => false end;
  num_na := None;
  lit_0_70 := Some (7 # 10);
  lit_1_20 := Some (12 # 10);
  lit_100 := Some (100 # 1)
|}.

(** A cell of a coerced column: an [int64] or a [float64]. *)
Inductive value :=
| VInt (z : Z)
| VFloat (f : float).

(** Two's complement wrap-around of [int64] arithmetic. *)
Definition wrap64 (z : Z) : Z := (z + 2 ^ 63) mod 2 ^ 64 - 2 ^ 63.

(** The cast of an [int64] to [float64]: the nearest double, ties to
    even. *)
Definition of_int64 (z : Z) : float :=
  SF2Prim (binary_normalize prec emax z 0 false).

Definition to_float (v : value) : float :=
  match v with
  | VInt z => of_int64 z
  | VFloat f => f
  end.

(** Element-wise arithmetic of numpy: two [int64] operands are subtracted
    and multiplied in [int64], silently wrapping around; with a [float64]
    operand the other one is cast first.  [/] is true division, in
    [float64] whatever the operands, and so are the comparisons the script
    makes, whose right-hand sides are [float64].  A Python [float] literal
    behaves as a [float64] and the literal [100] as an [int64]. *)
#[global] Instance pandas : Numeric value := {|
  num_mul x y :=
    match x, y with
    | VInt a, VInt b => VInt (wrap64 (a * b))
    | _, _ => VFloat (to_float x * to_float y)
    end;
  num_sub x y :=
    match x, y with
    | VInt a, VInt b => VInt (wrap64 (a - b))
    | _, _ => VFloat (to_float x - to_float y)
    end;
  num_div x y := VFloat (to_float x / to_float y);
  num_leb x y :=
    match x, y with
    | VInt a, VInt b => a <=? b
    | _, _ => PrimFloat.leb (to_float x) (to_float y)
    end;
  num_isna x :=
    match x with
    | VInt _ => false
    | VFloat f => PrimFloat.is_nan f
    end;
  num_na := VFloat nan;
  lit_0_70 := VFloat 0x1.6666666666666p-1%float;
  lit_1_20 := VFloat 0x1.3333333333333p+0%float;
  lit_100 := VInt 100
|}.

(** A column has one dtype: its cells are all [int64], within the range of
    that type, or all [float64]. *)
Definition is_int64 (v : value) : bool :=
  match v with
  | VInt z => (- 2 ^ 63 <=? z) && (z <? 2 ^ 63)
  | VFloat _ => false
  end.

Definition is_float64 (v : value) : bool :=
  match v with
  | VInt _ => false
  | VFloat _ => true
  end.

Definition has_dtype {R} (col : R -> value) (df : list R) : bool :=
  forallb (fun r => is_int64 (col r)) df
  || forallb (fun r => is_float64 (col r)) df.

(** What the proofs use of an arithmetic: comparisons with a missing
    operand are false, present values are totally preordered, and a missing
    factor makes the product missing. *)
Class NumericLaws (A : Type) `{Numeric A} : Prop := {
  leb_na_l (x y : A) : num_isna x = true → num_leb x y = false;
  leb_na_r (x y : A) : num_isna y = true → num_leb x y = false;
  leb_total (x y : A) :
    num_isna x = false → num_isna y = false →
    num_leb x y = false → num_leb y x = true;
  leb_trans (x y z : A) :
    num_leb x y = true → num_leb y z = true → num_leb x z = true;
  mul_na_r (x y : A) : num_isna y = true → num_isna (num_mul x y) = true
}.

(** ** Rows and frames *)

(** One row of the file: a symbol, twelve numeric columns, a timestamp. *)
Record Row (A : Type) := mkRow {
  symbol : string;
  open : A;
  dayHigh : A;
  dayLow : A;
  lastPrice : A;
  previousClose : A;
  change : A;
  pChange : A;
  totalTradedVolume : A;
  totalTradedValue : A;
  yearHigh : A;
  yearLow : A;
  lastUpdateTime : string;
  perChange30d : A
}.
Arguments mkRow {A}.
Arguments symbol {A}.
Arguments open {A}.
Arguments dayHigh {A}.
Arguments dayLow {A}.
Arguments lastPrice {A}.
Arguments previousClose {A}.
Arguments change {A}.
Arguments pChange {A}.
Arguments totalTradedVolume {A}.
Arguments totalTradedValue {A}.
Arguments yearHigh {A}.
Arguments yearLow {A}.
Arguments lastUpdateTime {A}.
Arguments perChange30d {A}.

(** A cell as read from the file: text that denotes the number [x], text
    that denotes no number, or a blank. *)
Inductive Cell (A : Type) :=
| Number (x : A)
| Text (s : string)
| Blank.
Arguments Number {A} x.
Arguments Text {A} s.
Arguments Blank {A}.

Section Frames.
Context {A : Type} `{Numeric A}.

(** [pd.to_numeric(..., errors='coerce')] on one cell. *)
Definition to_numeric (c : Cell A) : A :=
  match c with
  | Number x => x
  | Text _ => num_na
  | Blank => num_na
  end.

(** Lines 124-129: the twelve numeric columns are coerced. *)
Definition coerce_row (r : Row (Cell A)) : Row A :=
  {| symbol := symbol r;
     open := to_numeric (open r);
     dayHigh := to_numeric (dayHigh r);
     dayLow := to_numeric (dayLow r);
     lastPrice := to_numeric (lastPrice r);
     previousClose := to_numeric (previousClose r);
     change := to_numeric (change r);
     pChange := to_numeric (pChange r);
     totalTradedVolume := to_numeric (totalTradedVolume r);
     totalTradedValue := to_numeric (totalTradedValue r);
     yearHigh := to_numeric (yearHigh r);
     yearLow := to_numeric (yearLow r);
     lastUpdateTime := lastUpdateTime r;
     perChange30d := to_numeric (perChange30d r) |}.

Definition coerce_frame (raw : list (Row (Cell A))) : list (Row A) :=
  coerce_row <$> raw.

(** ** [sort_values] and [head] *)

Fixpoint insert_by {R} (le : R -> R -> bool) (x : R) (l : list R) : list R :=
  match l with
  | [] => [x]
  | y :: l' => if le x y then x :: l else y :: insert_by le x l'
  end.

Definition isort {R} (le : R -> R -> bool) (l : list R) : list R :=
  foldr (insert_by le) [] l.

(** The order of two keys for [ascending=True] or [ascending=False]. *)
Definition key_le (ascending : bool) (a b : A) : bool :=
  if ascending then num_leb a b else num_leb b a.

(** [df.sort_values(by=..., ascending=...)]: the rows whose key is present
    are ordered by key, the rows whose key is missing follow
    ([na_position='last']).  Here rows with equal keys keep their order;
    pandas leaves that order open, and no statement below depends on it. *)
Definition sort_values {R} (by_ : R -> A) (ascending : bool) (df : list R) : list R :=
  isort (fun r1 r2 => key_le ascending (by_ r1) (by_ r2))
        (List.filter (fun r => negb (num_isna (by_ r))) df)
  ++ List.filter (fun r => num_isna (by_ r)) df.

(** [r1] may stand before [r2] in a frame sorted by [by_]: the key of [r2]
    is missing, or both keys are present and in order. *)
Definition ranked {R} (by_ : R -> A) (ascending : bool) (r1 r2 : R) : Prop :=
  num_isna (by_ r2) = true
  ∨ (num_isna (by_ r1) = false ∧ num_isna (by_ r2) = false
     ∧ key_le ascending (by_ r1) (by_ r2) = true).

(** The key of [r] is present. *)
Definition present {R} (by_ : R -> A) (r : R) : Prop := num_isna (by_ r) = false.

(** [df.head(n)] *)
Definition head {R} (n : nat) (df : list R) : list R := take n df.

(** ** The five views *)

(** Lines 132-133. *)
Definition top5_gainers (df : list (Row A)) : list (Row A) :=
  head 5 (sort_values pChange false df).
Definition top5_losers (df : list (Row A)) : list (Row A) :=
  head 5 (sort_values pChange true df).

(** Line 142: [lastPrice <= 0.70 * yearHigh]. *)
Definition below_high_cond (r : Row A) : bool :=
  num_leb (lastPrice r) (num_mul lit_0_70 (yearHigh r)).

(** Line 144. *)
Definition pctBelowHigh (r : Row A) : A :=
  num_mul (num_div (num_sub (yearHigh r) (lastPrice r)) (yearHigh r)) lit_100.

(** Lines 142-144: the filtered frame with its added column. *)
Definition df_below_high (df : list (Row A)) : list (Row A * A) :=
  (fun r => (r, pctBelowHigh r)) <$> List.filter below_high_cond df.

(** Line 145. *)
Definition stocks_30_below_high (df : list (Row A)) : list (Row A * A) :=
  head 5 (sort_values snd false (df_below_high df)).

(** Line 151: [lastPrice >= 1.20 * yearLow]. *)
Definition above_low_cond (r : Row A) : bool :=
  num_leb (num_mul lit_1_20 (yearLow r)) (lastPrice r).

(** Line 153. *)
Definition pctAboveLow (r : Row A) : A :=
  num_mul (num_div (num_sub (lastPrice r) (yearLow r)) (yearLow r)) lit_100.

(** Lines 151-153. *)
Definition df_above_low (df : list (Row A)) : list (Row A * A) :=
  (fun r => (r, pctAboveLow r)) <$> List.filter above_low_cond df.

(** Line 154. *)
Definition stocks_20_above_low (df : list (Row A)) : list (Row A * A) :=
  head 5 (sort_values snd false (df_above_low df)).

(** Line 159. *)
Definition top30_returns (df : list (Row A)) : list (Row A) :=
  head 5 (sort_values perChange30d false df).

(** A row with the given symbol, daily change, last price and 52-week
    range; the other columns are missing. *)
Definition quote_row (sym : string) (pc lp yh yl : A) : Row A :=
  {| symbol := sym; open := num_na; dayHigh := num_na; dayLow := num_na;
     lastPrice := lp; previousClose := num_na; change := num_na;
     pChange := pc; totalTradedVolume := num_na; totalTradedValue := num_na;
     yearHigh := yh; yearLow := yl; lastUpdateTime := EmptyString;
     perChange30d := num_na |}.

(** A raw row with the given symbol, last price and 52-week range; the
    other cells are blank. *)
Definition raw_row (sym : string) (lp yh yl : Cell A) : Row (Cell A) :=
  {| symbol := sym; open := Blank; dayHigh := Blank; dayLow := Blank;
     lastPrice := lp; previousClose := Blank; change := Blank;
     pChange := Blank; totalTradedVolume := Blank; totalTradedValue := Blank;
     yearHigh := yh; yearLow := yl; lastUpdateTime := EmptyString;
     perChange30d := Blank |}.

End Frames.

(** ** Sample frames *)

Definition movers_sample : list (Row float) :=
  [ quote_row "A" 5%float nan nan nan; quote_row "B" (-3)%float nan nan nan;
    quote_row "C" 10%float nan nan nan; quote_row "D" (-1)%float nan nan nan;
    quote_row "E" 0%float nan nan nan ].

Definition at_69 : Row float := quote_row "P69" nan 69%float 100%float nan.
Definition at_70 : Row float := quote_row "P70" nan 70%float 100%float nan.
Definition at_71 : Row float := quote_row "P71" nan 71%float 100%float nan.
Definition at_119 : Row float := quote_row "P119" nan 119%float nan 100%float.
Definition at_120 : Row float := quote_row "P120" nan 120%float nan 100%float.
Definition at_121 : Row float := quote_row "P121" nan 121%float nan 100%float.

(** Last price 120.24 and 52-week low 100.2, as the nearest doubles. *)
Definition at_120_24 : Row float :=
  quote_row "RND" nan 0x1.e0f5c28f5c28fp+6%float nan 0x1.90ccccccccccdp+6%float.

(** Last price and 52-week high both the smallest positive double. *)
Definition at_tiny : Row float :=
  quote_row "TINY" nan 0x1p-1074%float 0x1p-1074%float nan.

(** A row of a frame of either dtype with the given symbol, last price and
    52-week range; the other columns are missing. *)
Definition range_row (sym : string) (lp yh yl : value) : Row value :=
  quote_row sym (VFloat nan) lp yh yl.

(** Seven rows with integer prices under a 52-week high of 100. *)
Definition below_high_sample : list (Row value) :=
  (fun '(sym, lp) => range_row sym (VInt lp) (VInt 100) (VInt 1))
    <$> [ ("P40", 40); ("P71", 71); ("P10", 10); ("P60", 60); ("P30", 30);
          ("P50", 50); ("P20", 20) ].

(** Seven rows with integer prices over a 52-week low of 100. *)
Definition above_low_sample : list (Row value) :=
  (fun '(sym, lp) => range_row sym (VInt lp) (VInt 1000) (VInt 100))
    <$> [ ("P140", 140); ("P119", 119); ("P170", 170); ("P120", 120);
          ("P150", 150); ("P130", 130); ("P160", 160) ].

(** Integer prices at, below and above the two thresholds of a range from
    100 to 100. *)
Definition boundary_sample : list (Row value) :=
  (fun '(sym, lp) => range_row sym (VInt lp) (VInt 100) (VInt 100))
    <$> [ ("P71", 71); ("P69", 69); ("P70", 70); ("P119", 119);
          ("P121", 121); ("P120", 120) ].

(** Last price 63 under a high of 90, as integers and as doubles, and over
    the rationals. *)
Definition at_63_int : Row value := range_row "P63" (VInt 63) (VInt 90) (VInt 1).
Definition at_63_float : Row value :=
  range_row "P63" (VFloat 63%float) (VFloat 90%float) (VFloat 1%float).
Definition exact_63 : Row (option Q) :=
  quote_row "P63" None (Some (63 # 1)) (Some (90 # 1)) (Some (1 # 1)).

(** Last price 12.36 over a low of 10.3, as the nearest doubles, and over
    the rationals. *)
Definition at_12_36 : Row value :=
  range_row "P1236" (VFloat 0x1.8b851eb851eb8p+3%float) (VFloat 100%float)
    (VFloat 0x1.499999999999ap+3%float).
Definition exact_12_36 : Row (option Q) :=
  quote_row "P1236" None (Some (1236 # 100)) (Some (100 # 1)) (Some (103 # 10)).

(** Integer columns at the ends of the [int64] range. *)
Definition at_wrap_high : Row value :=
  range_row "WRAP" (VInt (-9000000000000000000)) (VInt 9000000000000000000)
    (VInt 1).
Definition at_wrap_low : Row value :=
  range_row "WRAP" (VInt 9000000000000000000) (VInt 1)
    (VInt (-9000000000000000000)).

(** A raw frame whose first row has an unreadable last price. *)
Definition unreadable : Row (Cell float) :=
  raw_row "BAD" (Text "n/a") (Number 100%float) (Number 10%float).
Definition raw_sample : list (Row (Cell float)) :=
  [ unreadable;
    raw_row "GOOD" (Number 50%float) (Number 100%float) (Number 10%float) ].

(** A row over the rationals: last price 69, high 100, low 50. *)
Definition exact_69 : Row (option Q) :=
  quote_row "Q69" None (Some (69 # 1)) (Some (100 # 1)) (Some (50 # 1)).

(** Last price 50 over a 52-week low of zero. *)
Definition at_zero_low : Row float := quote_row "Z" nan 50%float nan 0%float.

(** [r] with the 30-day change [x]. *)
Definition with_return (r : Row float) (x : float) : Row float :=
  {| symbol := symbol r; open := open r; dayHigh := dayHigh r;
     dayLow := dayLow r; lastPrice := lastPrice r;
     previousClose := previousClose r; change := change r;
     pChange := pChange r; totalTradedVolume := totalTradedVolume r;
     totalTradedValue := totalTradedValue r; yearHigh := yearHigh r;
     yearLow := yearLow r; lastUpdateTime := lastUpdateTime r;
     perChange30d := x |}.

(** [movers_sample] with the daily change as 30-day change as well. *)
Definition returns_sample : list (Row float) :=
  (fun r => with_return r (pChange r)) <$> movers_sample.

End Analyzer.

(* ===================================================================== *)
(** * Part II b. The script: the Analyzer's output and the main block    *)
(* ===================================================================== *)

Module Main.
Import Fetcher Analyzer.

(** What [analyze_and_visualize] prints: the five tables, with the columns
    selected for each. *)
Record Report := mkReport {
  gainers_table : list (string * float);                    (* lines 135-136 *)
  losers_table : list (string * float);                     (* lines 137-138 *)
  below_high_table : list (string * float * float * float); (* lines 146-147 *)
  above_low_table : list (string * float * float * float);  (* lines 155-156 *)
  returns_table : list (string * float)                     (* lines 160-161 *)
}.

(** Line 182. *)
Definition chart_file : string := "gainers_losers.png".

(** How lines 164-183 end: the chart is saved, or an exception leaves them
    ([bar] on a symbol that is missing, [savefig] on a disk that refuses
    the file), with nothing or a part of the chart written. *)
Inductive Plot :=
| Saved (png : string)
| PlotFailed (e : exn) (written : option string).

Section Script.
(** [pd.read_csv] on the text of a file, with the columns the script looks
    up in it: the raw frame, or the exception raised on the way. *)
Variable read_csv : string -> result (list (Row (Cell float))).
(** Lines 123-161 on the raw frame: the coercion and the five tables as
    printed.  Part IV specifies the views up to the order of rows with equal
    keys, which the sort of pandas does not fix; the script is taken with
    the tables it prints. *)
Variable tables : list (Row (Cell float)) -> Report.
(** Lines 164-183 on the two tables that are drawn. *)
Variable savefig : list (string * float) -> list (string * float) -> Plot.

(** Lines 119-184, on the files of the disk: what was printed, the disk
    afterwards and how the call ended.  For a file that is not there
    [pd.read_csv] raises [FileNotFoundError], an [OSError].  The tables are
    printed before the chart is drawn: a failure of the chart leaves
    them on the screen. *)
Definition analyze_and_visualize (csv_filename : string)
    (files : gmap string string)
    : Outcome * gmap string string * option Report :=
  match files !! csv_filename with
  | None => (Escaped (OSError "No such file or directory"), files, None)
  | Some text =>
      match read_csv text with
      | Raise e => (Escaped e, files, None)
      | Ok df =>
          let rep := tables df in
          match savefig (gainers_table rep) (losers_table rep) with
          | Saved png => (Returned, <[chart_file := png]> files, Some rep)
          | PlotFailed e None => (Escaped e, files, Some rep)
          | PlotFailed e (Some part) =>
              (Escaped e, <[chart_file := part]> files, Some rep)
          end
      end
  end.

(** Lines 186-192: the Fetcher, then the Analyzer on the same file name,
    whatever the Fetcher did.  The report stands for what the Analyzer
    printed. *)
Definition main (env : Env) (s : State) : Outcome * State * option Report :=
  let csv_file := "nifty50_data.csv" in
  match call (scrape_nifty50_data env csv_file) s with
  | (Escaped e, s1) => (Escaped e, s1, None)
  | (Returned, s1) =>
      match analyze_and_visualize csv_file (fs s1) with
      | (o, files, rep) => (o, {| fs := files; stdout := stdout s1 |}, rep)
      end
  end.

End Script.

(** A reader that takes a text for a frame of one row named by it. *)
Definition sample_read_csv (text : string) : result (list (Row (Cell float))) :=
  Ok [raw_row text (Number 50%float) (Number 100%float) (Number 10%float)].

(** The daily movers of a frame in the arithmetic of [float64] columns, the
    other tables left empty. *)
Definition sample_tables (df : list (Row (Cell float))) : Report :=
  {| gainers_table :=
       (fun r => (symbol r, pChange r)) <$> top5_gainers (coerce_frame df);
     losers_table :=
       (fun r => (symbol r, pChange r)) <$> top5_losers (coerce_frame df);
     below_high_table := [];
     above_low_table := [];
     returns_table := [] |}.

Definition sample_savefig (left right : list (string * float)) : Plot :=
  Saved "PNG".


End Main.

(* ===================================================================== *)
(** * Part III. Properties of the Fetcher                                *)
(* ===================================================================== *)

Module FetcherProps.
Import Fetcher.

(** Unfolds the monad of [scrape_nifty50_data] down to matches on states. *)
Ltac munfold :=
  unfold lift, raise, return_, print, sleep, try_except, result_try, printed in *;
  unfold mbind, mret, M_bind, M_ret, result_bind, result_ret in *.

(** ** Strings and states *)

Lemma append_cons (x : ascii) (a b : string) :
  String x a +:+ b = String x (a +:+ b).
Proof. reflexivity. Qed.

Lemma append_assoc (a b c : string) : (a +:+ b) +:+ c = a +:+ (b +:+ c).
Proof. induction a as [|x a IH]; [done|]. by rewrite !append_cons, IH. Qed.

Lemma append_nil_r (a : string) : a +:+ EmptyString = a.
Proof. induction a as [|x a IH]; [done|]. by rewrite append_cons, IH. Qed.

Lemma printed_nil s : printed s [] = s.
Proof. destruct s. unfold printed. simpl. by rewrite app_nil_r. Qed.

Lemma printed_app s out1 out2 :
  printed (printed s out1) out2 = printed s (out1 ++ out2).
Proof. unfold printed. simpl. by rewrite app_assoc. Qed.

Lemma file_write_holding env name c data fs0 out :
  encodable env data = true →
  file_write env name data (holding name c fs0 out)
  = (Normal tt, holding name (c +:+ data) fs0 out).
Proof.
  intros He. unfold file_write, holding. rewrite He. simpl.
  by rewrite alter_insert_eq.
Qed.

Lemma file_write_fails env name data s :
  encodable env data = false →
  file_write env name data s
  = (Raised (UnicodeEncodeError "surrogates not allowed"), s).
Proof. intros He. unfold file_write. by rewrite He. Qed.

(** The header is ASCII: its write cannot fail. *)
Lemma header_encodable env : encodable env header_line = true.
Proof. reflexivity. Qed.

(** ** The three stages, one at a time *)

Lemma prime_session_run env s :
  prime_session env s =
  match session_get env homepage_url 5 with
  | Ok r =>
      if bool_decide (status_code r ≠ 200)
      then (Return_, printed s [ErrHomepageStatus (status_code r)])
      else (Normal tt, s)
  | Raise e =>
      if isinstance_RequestException e
      then (Return_, printed s [ErrHomepageOpen e])
      else (Raised e, s)
  end.
Proof.
  unfold prime_session. munfold.
  destruct (session_get env homepage_url 5) as [r|e]; simpl.
  - by destruct (bool_decide (status_code r ≠ 200)).
  - by destruct (isinstance_RequestException e).
Qed.

Lemma fetch_data_run env url s :
  fetch_data env url s =
  match session_get env url 10 with
  | Raise e =>
      if isinstance_RequestException e
      then (Return_, printed s [ErrFetch url e])
      else (Raised e, s)
  | Ok r =>
      let seen := [RespStatus (status_code r); RespHeaders (headers r)] in
      if bool_decide (status_code r ≠ 200)
      then (Return_,
            printed s (seen ++ [ErrHttp (status_code r); RespContent (text r)]))
      else match parse_body env r with
           | Ok v => (Normal v, printed s seen)
           | Raise e =>
               if isinstance_RequestException e
               then (Return_, printed s (seen ++ [ErrFetch url e]))
               else (Raised e, printed s seen)
           end
  end.
Proof.
  unfold fetch_data. munfold.
  destruct (session_get env url 10) as [r|e]; simpl.
  - destruct (bool_decide (status_code r ≠ 200)); simpl.
    + by rewrite <- !app_assoc.
    + destruct (parse_body env r) as [v|e]; simpl.
      * by rewrite <- !app_assoc.
      * destruct (isinstance_RequestException e); simpl; by rewrite <- !app_assoc.
  - by destruct (isinstance_RequestException e).
Qed.

(** The body is tried as JSON first. *)
Lemma parse_body_direct env r v : json r = Ok v → parse_body env r = Ok v.
Proof. unfold parse_body. by intros ->. Qed.

(** On a [ValueError] the body goes through gzip, UTF-8 and JSON. *)
Lemma parse_body_fallback env r e :
  json r = Raise e → isinstance_ValueError e = true →
  parse_body env r
  = (gzip_decompress env (content r) ≫= decode_utf8 env) ≫= json_loads env.
Proof.
  unfold parse_body. intros -> He. simpl. rewrite He.
  by destruct (gzip_decompress env (content r)).
Qed.

(** ** The write step *)

Lemma header_record env : csv_record env (PStr <$> csv_headers) = header_line.
Proof. reflexivity. Qed.

(** The dict literal and [DictWriter] together project the schema fields. *)
Lemma build_row_dict (d : gmap string pyval) :
  build_row (PDict d) ≫= dict_to_list csv_headers = Ok (project d).
Proof. vm_compute. reflexivity. Qed.

Lemma build_row_other (v : pyval) :
  (∀ d, v ≠ PDict d) →
  build_row v = Raise (AttributeError "object has no attribute 'get'").
Proof. intros Hv. destruct v; try reflexivity. by destruct (Hv d). Qed.

Lemma row_step_write env name d s :
  row_step env name (PDict d) s
  = file_write env name (csv_record env (project d)) s.
Proof.
  unfold row_step, writerow. pose proof (build_row_dict d) as Hrow.
  destruct (build_row (PDict d)) as [row|e]; [|done].
  munfold. simpl in *. by rewrite Hrow.
Qed.

Lemma row_step_dict env name d c fs0 out :
  encodable env (csv_record env (project d)) = true →
  row_step env name (PDict d) (holding name c fs0 out)
  = (Normal tt, holding name (c +:+ csv_record env (project d)) fs0 out).
Proof. intros He. rewrite row_step_write. by apply file_write_holding. Qed.

(** A record that cannot be encoded ends the loop and leaves the file as
    it was. *)
Lemma row_step_unencodable env name d s :
  encodable env (csv_record env (project d)) = false →
  row_step env name (PDict d) s
  = (Raised (UnicodeEncodeError "surrogates not allowed"), s).
Proof. intros He. rewrite row_step_write. by apply file_write_fails. Qed.

Lemma row_step_other env name v s :
  (∀ d, v ≠ PDict d) →
  row_step env name v s
  = (Raised (AttributeError "object has no attribute 'get'"), s).
Proof. intros Hv. unfold row_step. by rewrite (build_row_other v Hv). Qed.


(** Whatever the row list holds, the loop only appends to the file, and it
    ends normally or with an [Exception]. *)
Lemma for_each_any env name stocks c fs0 out :
  ∃ fl body,
    for_each stocks (row_step env name) (holding name c fs0 out)
    = (fl, holding name (c +:+ body) fs0 out)
    ∧ (fl = Normal tt ∨ ∃ e, fl = Raised e ∧ isinstance_Exception e = true).
Proof.
  revert c. induction stocks as [|v stocks IH]; intros c; simpl.
  - exists (Normal tt), EmptyString. rewrite append_nil_r. auto.
  - munfold. destruct v as [| | | | | |d];
      try (rewrite row_step_other by done;
           exists (Raised (AttributeError "object has no attribute 'get'")),
                  EmptyString;
           rewrite append_nil_r; split; [done | right; eauto]).
    destruct (encodable env (csv_record env (project d))) eqn:Hd.
    + rewrite row_step_dict by done.
      destruct (IH (c +:+ csv_record env (project d)))
        as (fl & body & -> & Hfl).
      exists fl, (csv_record env (project d) +:+ body). rewrite append_assoc.
      split; [|done]. by destruct Hfl as [-> | (e & -> & _)].
    + rewrite row_step_unencodable by done.
      exists (Raised (UnicodeEncodeError "surrogates not allowed")),
             EmptyString.
      rewrite append_nil_r; split; [done | right; eauto].
Qed.

(** When [open] fails nothing is written. *)
Lemma write_csv_open_fails env name rows s e :
  open_w env name = Some e →
  write_csv env name rows s =
  if isinstance_Exception e
  then (Normal tt, printed s [ErrCsv e])
  else (Raised e, s).
Proof.
  intros Ho. unfold write_csv. munfold. unfold file_open_w. rewrite Ho.
  by destruct (isinstance_Exception e).
Qed.

(** Once the file is open the header is written, some records follow, and
    the step ends with one of its two messages. *)
Lemma write_csv_opened env name rows s :
  open_w env name = None →
  ∃ body d,
    write_csv env name rows s
    = (Normal tt, holding name (header_line +:+ body) (fs s) (stdout s ++ [d]))
    ∧ (d = DataSaved name ∨ ∃ e, d = ErrCsv e).
Proof.
  intros Ho. unfold write_csv. munfold. unfold file_open_w, writeheader.
  rewrite Ho.
  change {| fs := <[name:=EmptyString]> (fs s); stdout := stdout s |}
    with (holding name EmptyString (fs s) (stdout s)).
  rewrite header_record, file_write_holding by apply header_encodable.
  change (EmptyString +:+ header_line) with header_line. simpl.
  destruct (py_iter rows) as [stocks|e] eqn:Hiter; simpl.
  - destruct (for_each_any env name stocks header_line (fs s) (stdout s))
      as (fl & body & -> & [-> | (e & -> & He)]).
    + exists body, (DataSaved name). split; [done | by left].
    + rewrite He. exists body, (ErrCsv e). split; [done | right; eauto].
  - assert (isinstance_Exception e = true) as ->.
    { destruct rows; simpl in Hiter; by simplify_eq. }
    exists EmptyString, (ErrCsv e). rewrite append_nil_r.
    split; [done | right; eauto].
Qed.


(** ** Quoting *)





(** ** The whole procedure *)

Lemma scrape_unfold env name s :
  scrape_nifty50_data env name s =
  match prime_session env s with
  | (Normal _, s1) =>
      match fetch_data env api_url s1 with
      | (Normal data, s2) =>
          match py_get data "data" (PList []) with
          | Ok rows =>
              if negb (truthy rows)
              then (Return_, printed s2 [NoStockData])
              else write_csv env name rows s2
          | Raise e => (Raised e, s2)
          end
      | (Return_, s2) => (Return_, s2)
      | (Raised e, s2) => (Raised e, s2)
      end
  | (Return_, s1) => (Return_, s1)
  | (Raised e, s1) => (Raised e, s1)
  end.
Proof.
  unfold scrape_nifty50_data. munfold. cbv zeta.
  destruct (prime_session env s) as [[[]| |e1] s1]; try done.
  destruct (fetch_data env api_url s1) as [[data| |e2] s2]; try done.
  destruct (py_get data "data" (PList [])) as [rows|e3]; try done.
  by destruct (negb (truthy rows)).
Qed.

(** Every call either leaves the file system as it was and does not end
    with the success message, or it has opened the file and written the
    header. *)
Lemma scrape_cases env name s :
  (∃ o out,
      call (scrape_nifty50_data env name) s = (o, printed s out)
      ∧ last out ≠ Some (DataSaved name))
  ∨ (open_w env name = None
     ∧ ∃ pre body d,
         call (scrape_nifty50_data env name) s
         = (Returned,
            holding name (header_line +:+ body) (fs s) (stdout s ++ pre ++ [d]))
         ∧ (d = DataSaved name ∨ ∃ e, d = ErrCsv e)).
Proof.
  unfold call. rewrite scrape_unfold, prime_session_run.
  destruct (session_get env homepage_url 5) as [r1|e1].
  2:{ left. destruct (isinstance_RequestException e1).
      - by eexists _, _.
      - exists (Escaped e1), []. by rewrite printed_nil. }
  destruct (bool_decide (status_code r1 ≠ 200)).
  { left. by eexists _, _. }
  rewrite fetch_data_run.
  destruct (session_get env api_url 10) as [r2|e2].
  2:{ left. destruct (isinstance_RequestException e2).
      - by eexists _, _.
      - exists (Escaped e2), []. by rewrite printed_nil. }
  cbv zeta. destruct (bool_decide (status_code r2 ≠ 200)).
  { left. by eexists _, _. }
  destruct (parse_body env r2) as [data|e3].
  2:{ left. destruct (isinstance_RequestException e3); by eexists _, _. }
  destruct (py_get data "data" (PList [])) as [rows|e4].
  2:{ left. by eexists _, _. }
  destruct (negb (truthy rows)).
  { left. eexists _, _. rewrite printed_app. by split. }
  set (seen := [RespStatus (status_code r2); RespHeaders (headers r2)]).
  destruct (open_w env name) as [e5|] eqn:Ho.
  - left. rewrite (write_csv_open_fails _ _ _ _ e5 Ho).
    destruct (isinstance_Exception e5); eexists _, _; rewrite ?printed_app;
      by split.
  - right. split; [done|].
    destruct (write_csv_opened env name rows (printed s seen) Ho)
      as (body & d & -> & Hd).
    exists seen, body, d. simpl. by rewrite <- app_assoc.
Qed.

(** A body that cannot be parsed either way: unless the exception is a
    [RequestException], it leaves the procedure. *)
Lemma unparsable_body_escapes env name s r1 r2 e :
  session_get env homepage_url 5 = Ok r1 → status_code r1 = 200 →
  session_get env api_url 10 = Ok r2 → status_code r2 = 200 →
  parse_body env r2 = Raise e → isinstance_RequestException e = false →
  call (scrape_nifty50_data env name) s
  = (Escaped e, printed s [RespStatus 200; RespHeaders (headers r2)]).
Proof.
  intros Hhome Hc1 Hapi Hc2 Hparse He. unfold call.
  rewrite scrape_unfold, prime_session_run, Hhome, Hc1. simpl.
  by rewrite fetch_data_run, Hapi, Hc2, Hparse, He.
Qed.

(** ** The claims *)

(** C1 (as amended): every run that ends with the success message has
    written a file that starts with the header record of the fourteen
    column names in the order of [csv_headers], which ends with
    [lastUpdateTime], [perChange30d]; the payload plays no part in it. *)
Theorem header_is_fixed env name s out :
  stdout (call (scrape_nifty50_data env name) s).2 = stdout s ++ out →
  last out = Some (DataSaved name) →
  csv_headers
  = [ "symbol"; "open"; "dayHigh"; "dayLow"; "lastPrice"; "previousClose";
      "change"; "pChange"; "totalTradedVolume"; "totalTradedValue";
      "yearHigh"; "yearLow"; "lastUpdateTime"; "perChange30d" ]
  ∧ ∃ body,
      fs (call (scrape_nifty50_data env name) s).2 !! name
      = Some (join_fields csv_headers +:+ lineterminator +:+ body).
Proof.
  intros Hout Hlast. split; [reflexivity|].
  destruct (scrape_cases env name s)
    as [(o & out' & Hcall & Hno) | (_ & pre & body & d & Hcall & _)];
    rewrite Hcall in *; simpl in *.
  - apply app_inv_head in Hout. by subst.
  - exists body. rewrite lookup_insert_eq. f_equal.
Qed.

Lemma header_is_fixed_witness :
  ∃ body,
    fs (call (scrape_nifty50_data env_ok target) empty_disk).2 !! target
    = Some (join_fields csv_headers +:+ lineterminator +:+ body).
Proof.
  apply (header_is_fixed env_ok target empty_disk
           [RespStatus 200; RespHeaders "{}"; DataSaved target]);
    reflexivity.
Defined.

(** C1, counterexample: the file of a successful run starts with the
    header in the order of the code, not in the order of the data model
    (which has [perChange30d] before [lastUpdateTime]). *)
Lemma header_order_differs_from_data_model :
  fs (call (scrape_nifty50_data env_ok target) empty_disk).2 !! target
  = Some sample_file
  ∧ last (stdout (call (scrape_nifty50_data env_ok target) empty_disk).2)
    = Some (DataSaved target)
  ∧ String.prefix header_line sample_file = true
  ∧ String.prefix data_model_header_line sample_file = false.
Proof. vm_compute. repeat split; reflexivity. Qed.



(** C3, at the failing input: the API answers 200 with an HTML page.  The
    body is not JSON and not gzip; [gzip.BadGzipFile] leaves the procedure,
    no message about the failure is printed. *)
Lemma html_body_escapes :
  call (scrape_nifty50_data env_html target) disk_with_old_file
  = (Escaped (BadGzipFile "Not a gzipped file"),
     {| fs := fs disk_with_old_file;
        stdout := [RespStatus 200; RespHeaders "{}"] |}).
Proof. by vm_compute. Qed.




(** C8: when the priming request answers with a status other than 200 or
    raises a [RequestException], the call prints one diagnostic, leaves the
    file system as it was (so it creates no file) and returns. *)
Theorem priming_failure_aborts env name s :
  (∃ r, session_get env homepage_url 5 = Ok r ∧ status_code r ≠ 200)
  ∨ (∃ e, session_get env homepage_url 5 = Raise e
          ∧ isinstance_RequestException e = true) →
  ∃ d, call (scrape_nifty50_data env name) s
       = (Returned, {| fs := fs s; stdout := stdout s ++ [d] |})
       ∧ ((∃ code, d = ErrHomepageStatus code) ∨ (∃ e, d = ErrHomepageOpen e)).
Proof.
  intros Hfail. unfold call. rewrite scrape_unfold, prime_session_run.
  destruct Hfail as [(r & -> & Hcode) | (e & -> & ->)].
  - rewrite bool_decide_eq_true_2 by done. eauto.
  - eauto.
Qed.

Lemma priming_failure_aborts_witness :
  ∃ d, call (scrape_nifty50_data env_forbidden target) empty_disk
       = (Returned,
          {| fs := fs empty_disk; stdout := stdout empty_disk ++ [d] |})
       ∧ ((∃ code, d = ErrHomepageStatus code) ∨ (∃ e, d = ErrHomepageOpen e)).
Proof.
  apply (priming_failure_aborts env_forbidden target empty_disk).
  left. exists (page 403). split; [reflexivity | simpl; lia].
Defined.

End FetcherProps.

(* ===================================================================== *)
(** * Part IV. Properties of the Analyzer                                *)
(* ===================================================================== *)

Module AnalyzerProps.
Import Analyzer.

(** ** Sorting, for any arithmetic that satisfies the laws *)

Section Sorting.
Context {A : Type} `{NumericLaws A} {R : Type}.
Implicit Types (key : R → A) (df : list R) (le : R → R → bool).

Lemma insert_by_perm le x l : insert_by le x l ≡ₚ x :: l.
Proof.
  induction l as [|y l IH]; simpl; [done|].
  destruct (le x y); [done|]. rewrite IH. apply Permutation_swap.
Qed.

Lemma isort_perm le l : isort le l ≡ₚ l.
Proof.
  induction l as [|x l IH]; simpl; [done|].
  by rewrite insert_by_perm, IH.
Qed.

Lemma filter_split (p : R → bool) l :
  List.filter (fun r => negb (p r)) l ++ List.filter p l ≡ₚ l.
Proof.
  induction l as [|x l IH]; simpl; [done|].
  destruct (p x); simpl.
  - by rewrite <- Permutation_middle, IH.
  - by rewrite IH.
Qed.

Lemma sort_values_perm key asc df : sort_values key asc df ≡ₚ df.
Proof. unfold sort_values. rewrite isort_perm. apply filter_split. Qed.

Lemma key_le_total asc (x y : A) :
  num_isna x = false → num_isna y = false →
  key_le asc x y = false → key_le asc y x = true.
Proof. destruct asc; simpl; intros; by apply leb_total. Qed.

Lemma key_le_trans asc (x y z : A) :
  key_le asc x y = true → key_le asc y z = true → key_le asc x z = true.
Proof. destruct asc; simpl; intros; eapply leb_trans; eauto. Qed.

Lemma ranked_present key asc r1 r2 :
  present key r1 → present key r2 →
  key_le asc (key r1) (key r2) = true → ranked key asc r1 r2.
Proof. intros. right. auto. Qed.

Lemma insert_by_sorted key asc x l :
  present key x → Forall (present key) l →
  StronglySorted (ranked key asc) l →
  StronglySorted (ranked key asc)
    (insert_by (fun r1 r2 => key_le asc (key r1) (key r2)) x l).
Proof.
  intros Hx Hl Hs. induction Hs as [|y l Hs IH Hy]; simpl.
  - repeat constructor.
  - apply Forall_cons in Hl as [Hpy Hl].
    destruct (key_le asc (key x) (key y)) eqn:Hxy.
    + constructor; [by constructor|].
      constructor; [by apply ranked_present|].
      rewrite Forall_forall in Hy, Hl. apply Forall_forall. intros z Hz.
      apply ranked_present; [done | by apply Hl |].
      destruct (Hy z Hz) as [Hna | (_ & _ & Hyz)].
      * rewrite (Hl z Hz) in Hna. done.
      * by eapply key_le_trans.
    + constructor; [by apply IH|].
      rewrite (insert_by_perm _ x l). constructor; [|done].
      apply ranked_present; [done..|]. by apply key_le_total.
Qed.

Lemma insert_by_present key le x l :
  present key x → Forall (present key) l →
  Forall (present key) (insert_by le x l).
Proof. intros. rewrite insert_by_perm. by constructor. Qed.

Lemma isort_sorted key asc l :
  Forall (present key) l →
  StronglySorted (ranked key asc)
    (isort (fun r1 r2 => key_le asc (key r1) (key r2)) l)
  ∧ Forall (present key) (isort (fun r1 r2 => key_le asc (key r1) (key r2)) l).
Proof.
  induction 1 as [|x l Hx Hl [IHs IHp]]; simpl.
  - split; constructor.
  - split; [by apply insert_by_sorted | by apply insert_by_present].
Qed.

Lemma missing_sorted key asc l :
  Forall (fun r => num_isna (key r) = true) l →
  StronglySorted (ranked key asc) l.
Proof.
  induction 1 as [|x l Hx Hl IH]; constructor; [done|].
  eapply Forall_impl; [exact Hl|]. intros z Hz. by left.
Qed.

Lemma sort_values_sorted key asc df :
  StronglySorted (ranked key asc) (sort_values key asc df).
Proof.
  unfold sort_values.
  assert (Forall (fun r => num_isna (key r) = true)
            (List.filter (fun r => num_isna (key r)) df)) as Hmiss.
  { apply Forall_forall. intros r [_ Hr]%list_elem_of_In%filter_In. done. }
  assert (Forall (present key)
            (List.filter (fun r => negb (num_isna (key r))) df)) as Hpres.
  { apply Forall_forall. intros r [_ Hr]%list_elem_of_In%filter_In.
    by apply negb_true_iff in Hr. }
  destruct (isort_sorted key asc _ Hpres) as [Hs _].
  apply StronglySorted_app_2; [|done|by apply missing_sorted].
  intros r1 r2 _ Hr2. left. rewrite Forall_forall in Hmiss. by apply Hmiss.
Qed.

(** [head n] of a sorted frame, with the rows it leaves out: together they
    are the frame, in rank order. *)
Lemma head_of_sorted key asc n df :
  ∃ rest,
    head n (sort_values key asc df) ++ rest ≡ₚ df
    ∧ StronglySorted (ranked key asc) (head n (sort_values key asc df) ++ rest)
    ∧ length (head n (sort_values key asc df)) = (n `min` length df)%nat.
Proof.
  exists (drop n (sort_values key asc df)). unfold head.
  rewrite take_drop. split; [apply sort_values_perm|].
  split; [apply sort_values_sorted|].
  by rewrite length_take, sort_values_perm.
Qed.

Lemma head_subset (n : nat) (l : list R) (x : R) : x ∈ head n l → x ∈ l.
Proof. unfold head. intros Hx. rewrite <- (take_drop n l). set_solver. Qed.

(** ** Filters, for any arithmetic that satisfies the laws *)

Lemma filtered_frame (cond : Row A → bool) (metric : Row A → A)
    (df : list (Row A)) (r : Row A) (m : A) :
  (r, m) ∈ ((fun r => (r, metric r)) <$> List.filter cond df)
  ↔ r ∈ df ∧ cond r = true ∧ m = metric r.
Proof.
  rewrite list_elem_of_fmap. split.
  - intros (r' & [= -> ->] & [Hin Hc]%list_elem_of_In%filter_In).
    by rewrite list_elem_of_In.
  - intros (Hin%list_elem_of_In & Hc & ->). exists r. split; [done|].
    apply list_elem_of_In, filter_In. done.
Qed.

(** Adding the metric column keeps the rows, their order and their number. *)
Lemma frame_rows (cond : Row A → bool) (metric : Row A → A) (df : list (Row A)) :
  ((fun r => (r, metric r)) <$> List.filter cond df).*1 = List.filter cond df.
Proof.
  induction (List.filter cond df) as [|r l IH]; simpl; [done|]. by f_equal.
Qed.

Lemma below_high_needs_values (r : Row A) :
  num_isna (lastPrice r) = true ∨ num_isna (yearHigh r) = true →
  below_high_cond r = false.
Proof.
  unfold below_high_cond. intros [Hl | Hh].
  - by apply leb_na_l.
  - by apply leb_na_r, mul_na_r.
Qed.

Lemma above_low_needs_values (r : Row A) :
  num_isna (lastPrice r) = true ∨ num_isna (yearLow r) = true →
  above_low_cond r = false.
Proof.
  unfold above_low_cond. intros [Hl | Hh].
  - by apply leb_na_r.
  - by apply leb_na_l, mul_na_r.
Qed.

End Sorting.

(** ** binary64 satisfies the laws *)

Ltac cmp_cases :=
  repeat match goal with
  | |- context [Z.compare ?a ?b] => destruct (Z.compare_spec a b)
  | H : context [Z.compare ?a ?b] |- _ => destruct (Z.compare_spec a b)
  | |- context [Pos.compare_cont Eq ?a ?b] =>
      change (Pos.compare_cont Eq a b) with (Pos.compare a b);
      destruct (Pos.compare_spec a b)
  | H : context [Pos.compare_cont Eq ?a ?b] |- _ =>
      change (Pos.compare_cont Eq a b) with (Pos.compare a b) in H;
      destruct (Pos.compare_spec a b)
  end.

Lemma SFleb_trans (x y z : spec_float) :
  SFleb x y = true → SFleb y z = true → SFleb x z = true.
Proof.
  unfold SFleb, SFcompare.
  destruct x as [sx|sx| |sx mx ex], y as [sy|sy| |sy my ey],
           z as [sz|sz| |sz mz ez];
    try destruct sx; try destruct sy; try destruct sz;
    try reflexivity; try discriminate; intros Hxy Hyz;
    cmp_cases; simpl in *; subst; try reflexivity; try discriminate; try lia.
Qed.

Lemma SFleb_total (x y : spec_float) :
  x ≠ S754_nan → y ≠ S754_nan → SFleb x y = false → SFleb y x = true.
Proof.
  unfold SFleb, SFcompare.
  destruct x as [sx|sx| |sx mx ex], y as [sy|sy| |sy my ey];
    try destruct sx; try destruct sy;
    try reflexivity; try discriminate; try congruence; intros _ _ Hxy;
    cmp_cases; simpl in *; subst; try reflexivity; try discriminate; try lia.
Qed.

Lemma SFeqb_irrefl_nan (x : spec_float) : SFeqb x x = false → x = S754_nan.
Proof.
  unfold SFeqb, SFcompare. destruct x as [sx|sx| |sx mx ex]; try destruct sx;
    try reflexivity; try discriminate; cmp_cases; simpl;
    try discriminate; try lia.
Qed.

Lemma SFleb_nan_r (x : spec_float) : SFleb x S754_nan = false.
Proof. by destruct x. Qed.

Lemma is_nan_Prim2SF (x : float) : is_nan x = true ↔ Prim2SF x = S754_nan.
Proof.
  unfold is_nan. rewrite FloatAxioms.eqb_spec. split.
  - intros E. apply SFeqb_irrefl_nan. by apply negb_true_iff.
  - by intros ->.
Qed.

Lemma not_nan_Prim2SF (x : float) : is_nan x = false → Prim2SF x ≠ S754_nan.
Proof. intros E Hx%is_nan_Prim2SF. congruence. Qed.

Lemma is_nan_eq (x : float) : is_nan x = true → x = nan.
Proof. intros E%is_nan_Prim2SF. by rewrite <- (SF2Prim_Prim2SF x), E. Qed.

Lemma mul_nan_r (x : float) : (x * nan)%float = nan.
Proof.
  rewrite <- (SF2Prim_Prim2SF (x * nan)), mul_spec.
  change (Prim2SF nan) with S754_nan. unfold SF64mul, SFmul.
  by destruct (Prim2SF x).
Qed.

#[global] Instance binary64_laws : NumericLaws float.
Proof.
  split; simpl.
  - intros x y E%is_nan_Prim2SF. by rewrite leb_spec, E.
  - intros x y E%is_nan_Prim2SF. by rewrite leb_spec, E, SFleb_nan_r.
  - intros x y Hx%not_nan_Prim2SF Hy%not_nan_Prim2SF. rewrite !leb_spec.
    by apply SFleb_total.
  - intros x y z. rewrite !leb_spec. apply SFleb_trans.
  - intros x y ->%is_nan_eq. by rewrite mul_nan_r.
Qed.

(** ** Frames of either dtype *)

Lemma insert_by_ext {R} (le1 le2 : R → R → bool) (x : R) (l : list R) :
  (∀ y, y ∈ l → le1 x y = le2 x y) →
  insert_by le1 x l = insert_by le2 x l.
Proof.
  induction l as [|y l IH]; intros Hle; simpl; [done|].
  rewrite (Hle y) by apply list_elem_of_here.
  destruct (le2 x y); [done|]. f_equal. apply IH.
  intros z Hz. apply Hle. by apply list_elem_of_further.
Qed.

Lemma isort_ext {R} (le1 le2 : R → R → bool) (l : list R) :
  (∀ x y, x ∈ l → y ∈ l → le1 x y = le2 x y) →
  isort le1 l = isort le2 l.
Proof.
  induction l as [|x l IH]; intros Hle; simpl; [done|].
  rewrite IH by (intros; apply Hle; by apply list_elem_of_further).
  apply insert_by_ext. intros y Hy. rewrite isort_perm in Hy.
  apply Hle; [apply list_elem_of_here | by apply list_elem_of_further].
Qed.

(** Sorting by a [float64] column of a frame of either dtype is sorting in
    binary64. *)
Lemma sort_values_float {R} (key : R → value) (asc : bool) (l : list R) :
  Forall (fun r => is_float64 (key r) = true) l →
  sort_values key asc l = sort_values (fun r => to_float (key r)) asc l.
Proof.
  intros Hl. rewrite Forall_forall in Hl. unfold sort_values.
  assert (∀ r, r ∈ l → num_isna (key r) = PrimFloat.is_nan (to_float (key r)))
    as Hna.
  { intros r Hr. specialize (Hl r Hr). by destruct (key r). }
  f_equal.
  - rewrite (filter_ext_in (fun r => negb (num_isna (key r)))
               (fun r => negb (PrimFloat.is_nan (to_float (key r))))).
    2:{ intros r Hr%list_elem_of_In. by rewrite Hna. }
    apply isort_ext. intros x y [Hx _]%list_elem_of_In%filter_In
                             [Hy _]%list_elem_of_In%filter_In.
    apply list_elem_of_In in Hx, Hy.
    pose proof (Hl x Hx). pose proof (Hl y Hy).
    destruct (key x), (key y), asc; done.
  - apply filter_ext_in. intros r Hr%list_elem_of_In. by apply Hna.
Qed.

Local Open Scope float_scope.

Lemma of_int64_100 : of_int64 100 = 100.
Proof. by vm_compute. Qed.

Lemma below_high_cond_value (r : Row value) :
  below_high_cond r
  = (to_float (lastPrice r) <=? 0x1.6666666666666p-1 * to_float (yearHigh r)).
Proof. unfold below_high_cond. simpl. by destruct (lastPrice r). Qed.

Lemma pctBelowHigh_value (r : Row value) :
  pctBelowHigh r
  = VFloat (match yearHigh r, lastPrice r with
            | VInt h, VInt l => of_int64 (wrap64 (h - l))
            | h, l => to_float h - to_float l
            end / to_float (yearHigh r) * 100).
Proof.
  unfold pctBelowHigh. simpl. rewrite of_int64_100.
  by destruct (yearHigh r), (lastPrice r).
Qed.

Lemma above_low_cond_value (r : Row value) :
  above_low_cond r
  = (0x1.3333333333333p+0 * to_float (yearLow r) <=? to_float (lastPrice r)).
Proof. unfold above_low_cond. simpl. by destruct (lastPrice r). Qed.

Lemma pctAboveLow_value (r : Row value) :
  pctAboveLow r
  = VFloat (match lastPrice r, yearLow r with
            | VInt l, VInt y => of_int64 (wrap64 (l - y))
            | l, y => to_float l - to_float y
            end / to_float (yearLow r) * 100).
Proof.
  unfold pctAboveLow. simpl. rewrite of_int64_100.
  by destruct (lastPrice r), (yearLow r).
Qed.

(** The view of a frame with a [float64] metric column: its first five
    rows by descending metric, the missing metrics last. *)
Lemma view_of_float_metric (frame : list (Row value * value)) :
  Forall (fun p => is_float64 p.2 = true) frame →
  ∃ rest,
    head 5 (sort_values snd false frame) ++ rest ≡ₚ frame
    ∧ StronglySorted
        (fun p q : Row value * value =>
           is_nan (to_float q.2) = true
           ∨ (is_nan (to_float p.2) = false ∧ is_nan (to_float q.2) = false
              ∧ (to_float q.2 <=? to_float p.2) = true))
        (head 5 (sort_values snd false frame) ++ rest)
    ∧ length (head 5 (sort_values snd false frame))
      = (5 `min` length frame)%nat.
Proof.
  intros Hf. rewrite (sort_values_float snd false frame Hf).
  destruct (head_of_sorted (fun p : Row value * value => to_float p.2) false 5
              frame) as (rest & Hperm & Hsorted & Hlen).
  exists rest. split; [done|]. split; [exact Hsorted | done].
Qed.

(** ** The claims, in binary64 *)

(** C4: the gainers are the first five rows of the frame arranged by
    descending [pChange], the losers the first five of the frame arranged by
    ascending [pChange]: each view, followed by the rows it leaves out, is a
    rearrangement of the frame in rank order, and has five rows or all of
    them.  For the changes 5, -3, 10, -1, 0 the gainers read
    10, 5, 0, -1, -3 and the losers -3, -1, 0, 5, 10. *)
Theorem daily_movers_spec (df : list (Row float)) :
  (∃ rest,
      top5_gainers df ++ rest ≡ₚ df
      ∧ StronglySorted (ranked pChange false) (top5_gainers df ++ rest)
      ∧ length (top5_gainers df) = (5 `min` length df)%nat)
  ∧ (∃ rest,
      top5_losers df ++ rest ≡ₚ df
      ∧ StronglySorted (ranked pChange true) (top5_losers df ++ rest)
      ∧ length (top5_losers df) = (5 `min` length df)%nat)
  ∧ pChange <$> top5_gainers movers_sample = [10; 5; 0; -1; -3]
  ∧ pChange <$> top5_losers movers_sample = [-3; -1; 0; 5; 10].
Proof.
  split; [apply head_of_sorted|]. split; [apply head_of_sorted|].
  split; by vm_compute.
Qed.

(** C5 (as amended): on a frame whose columns each have one dtype, the
    below-high frame holds exactly the rows of the input whose last price is
    at most the binary64 product of the double nearest to 0.70 and the
    52-week high (in their order, each as often as in the input).  The
    metric of a row is [(yearHigh - lastPrice) / yearHigh * 100] in
    binary64, the difference being taken in wrapping [int64] when both
    columns are integer.  The view is the first five rows of that frame by
    descending metric, missing metrics last, or all of them when there are
    fewer.  Of seven integer prices under a high of 100 the view has those at
    10, 20, 30, 40 and 50, in that order; the prices 69 and 70 qualify and 71
    does not; under 9e18 the price -9e18 has the metric -4.96382304121724. *)
Theorem below_high_view_spec (df : list (Row value)) :
  has_dtype lastPrice df = true → has_dtype yearHigh df = true →
  let selected (r : Row value) : bool :=
    to_float (lastPrice r) <=? 0x1.6666666666666p-1 * to_float (yearHigh r) in
  let metric (r : Row value) : float :=
    match yearHigh r, lastPrice r with
    | VInt h, VInt l => of_int64 (wrap64 (h - l))
    | h, l => to_float h - to_float l
    end / to_float (yearHigh r) * 100 in
  let before (p q : Row value * value) : Prop :=
    is_nan (to_float q.2) = true
    ∨ (is_nan (to_float p.2) = false ∧ is_nan (to_float q.2) = false
       ∧ (to_float q.2 <=? to_float p.2) = true) in
  (∀ r m,
      (r, m) ∈ df_below_high df ↔
      r ∈ df ∧ selected r = true ∧ m = VFloat (metric r))
  ∧ (df_below_high df).*1 = List.filter selected df
  ∧ (∃ rest,
        stocks_30_below_high df ++ rest ≡ₚ df_below_high df
        ∧ StronglySorted before (stocks_30_below_high df ++ rest)
        ∧ length (stocks_30_below_high df)
          = (5 `min` length (df_below_high df))%nat)
  ∧ (fun p : Row value * value => (symbol p.1, p.2))
      <$> stocks_30_below_high below_high_sample
    = [ ("P10", VFloat 90); ("P20", VFloat 80); ("P30", VFloat 70);
        ("P40", VFloat 60); ("P50", VFloat 50) ]
  ∧ (fun p : Row value * value => (symbol p.1, p.2))
      <$> df_below_high boundary_sample
    = [ ("P69", VFloat 31); ("P70", VFloat 30) ]
  ∧ df_below_high [at_wrap_high]
    = [(at_wrap_high, VFloat (-0x1.3daf46d64a321p+2))].
Proof.
  intros _ _ selected metric before.
  assert (∀ r m,
            (r, m) ∈ df_below_high df ↔
            r ∈ df ∧ selected r = true ∧ m = VFloat (metric r)) as Hmem.
  { intros r m. unfold df_below_high. rewrite filtered_frame.
    by rewrite below_high_cond_value, pctBelowHigh_value. }
  split; [exact Hmem|]. split.
  { unfold df_below_high. rewrite frame_rows. apply filter_ext.
    intros r. apply below_high_cond_value. }
  split.
  { apply view_of_float_metric. apply Forall_forall.
    intros [r m] (_ & _ & ->)%Hmem. done. }
  split; [by vm_compute|]. split; by vm_compute.
Qed.

Lemma below_high_view_spec_witness :
  has_dtype lastPrice below_high_sample = true
  ∧ has_dtype yearHigh below_high_sample = true
  ∧ (df_below_high below_high_sample).*1
    = List.filter
        (fun r => to_float (lastPrice r)
                  <=? 0x1.6666666666666p-1 * to_float (yearHigh r))
        below_high_sample.
Proof.
  split; [reflexivity|]. split; [reflexivity|].
  destruct (below_high_view_spec below_high_sample) as (_ & Hrows & _);
    [reflexivity | reflexivity | exact Hrows].
Defined.

(** C5, counterexample: 63 is 0.70 times 90, so a last price of 63 under a
    high of 90 meets the condition as the claim has it; the script
    multiplies in binary64, where the product is 62.99999999999999, and
    leaves the row out, in integer columns and in float columns alike. *)
Lemma boundary_row_missed_below_high :
  (63 # 1 == (7 # 10) * (90 # 1))%Q
  ∧ below_high_cond exact_63 = true
  ∧ 0x1.6666666666666p-1 * 90 = 0x1.f7fffffffffffp+5
  ∧ df_below_high [at_63_int] = []
  ∧ stocks_30_below_high [at_63_int] = []
  ∧ df_below_high [at_63_float] = []
  ∧ stocks_30_below_high [at_63_float] = [].
Proof.
  split; [reflexivity|]. split; [reflexivity|].
  split; [by vm_compute|]. split; [by vm_compute|].
  split; [by vm_compute|]. split; by vm_compute.
Qed.

(** C6 (as amended): on a frame whose columns each have one dtype, the
    above-low frame holds exactly the rows of the input whose last price is
    at least the binary64 product of the double nearest to 1.20 and the
    52-week low (in their order, each as often as in the input).  The
    metric of a row is [(lastPrice - yearLow) / yearLow * 100] in binary64,
    the difference being taken in wrapping [int64] when both columns are
    integer.  The view is the first five rows of that frame by descending
    metric, missing metrics last, or all of them when there are fewer.  Of
    seven integer prices over a low of 100 the view has those at 170, 160,
    150, 140 and 130, in that order; the prices 121 and 120 qualify and 119
    does not; over -9e18 the price 9e18 has the metric 4.96382304121724. *)
Theorem above_low_view_spec (df : list (Row value)) :
  has_dtype lastPrice df = true → has_dtype yearLow df = true →
  let selected (r : Row value) : bool :=
    0x1.3333333333333p+0 * to_float (yearLow r) <=? to_float (lastPrice r) in
  let metric (r : Row value) : float :=
    match lastPrice r, yearLow r with
    | VInt l, VInt y => of_int64 (wrap64 (l - y))
    | l, y => to_float l - to_float y
    end / to_float (yearLow r) * 100 in
  let before (p q : Row value * value) : Prop :=
    is_nan (to_float q.2) = true
    ∨ (is_nan (to_float p.2) = false ∧ is_nan (to_float q.2) = false
       ∧ (to_float q.2 <=? to_float p.2) = true) in
  (∀ r m,
      (r, m) ∈ df_above_low df ↔
      r ∈ df ∧ selected r = true ∧ m = VFloat (metric r))
  ∧ (df_above_low df).*1 = List.filter selected df
  ∧ (∃ rest,
        stocks_20_above_low df ++ rest ≡ₚ df_above_low df
        ∧ StronglySorted before (stocks_20_above_low df ++ rest)
        ∧ length (stocks_20_above_low df)
          = (5 `min` length (df_above_low df))%nat)
  ∧ (fun p : Row value * value => (symbol p.1, p.2))
      <$> stocks_20_above_low above_low_sample
    = [ ("P170", VFloat 70); ("P160", VFloat 60); ("P150", VFloat 50);
        ("P140", VFloat 40); ("P130", VFloat 30) ]
  ∧ (fun p : Row value * value => (symbol p.1, p.2))
      <$> df_above_low boundary_sample
    = [ ("P121", VFloat 21); ("P120", VFloat 20) ]
  ∧ df_above_low [at_wrap_low]
    = [(at_wrap_low, VFloat 0x1.3daf46d64a321p+2)].
Proof.
  intros _ _ selected metric before.
  assert (∀ r m,
            (r, m) ∈ df_above_low df ↔
            r ∈ df ∧ selected r = true ∧ m = VFloat (metric r)) as Hmem.
  { intros r m. unfold df_above_low. rewrite filtered_frame.
    by rewrite above_low_cond_value, pctAboveLow_value. }
  split; [exact Hmem|]. split.
  { unfold df_above_low. rewrite frame_rows. apply filter_ext.
    intros r. apply above_low_cond_value. }
  split.
  { apply view_of_float_metric. apply Forall_forall.
    intros [r m] (_ & _ & ->)%Hmem. done. }
  split; [by vm_compute|]. split; by vm_compute.
Qed.

Lemma above_low_view_spec_witness :
  has_dtype lastPrice above_low_sample = true
  ∧ has_dtype yearLow above_low_sample = true
  ∧ (df_above_low above_low_sample).*1
    = List.filter
        (fun r => 0x1.3333333333333p+0 * to_float (yearLow r)
                  <=? to_float (lastPrice r))
        above_low_sample.
Proof.
  split; [reflexivity|]. split; [reflexivity|].
  destruct (above_low_view_spec above_low_sample) as (_ & Hrows & _);
    [reflexivity | reflexivity | exact Hrows].
Defined.

(** C6, counterexample: 12.36 is 1.20 times 10.3, so a last price of 12.36
    over a low of 10.3 meets the condition as the claim has it; the script
    multiplies the doubles read from the file, the product is
    12.360000000000001, above the double read for 12.36, and the row is left
    out. *)
Lemma boundary_row_missed_above_low :
  (1236 # 100 == (12 # 10) * (103 # 10))%Q
  ∧ above_low_cond exact_12_36 = true
  ∧ 0x1.3333333333333p+0 * 0x1.499999999999ap+3 = 0x1.8b851eb851eb9p+3
  ∧ (0x1.8b851eb851eb9p+3 <=? 0x1.8b851eb851eb8p+3) = false
  ∧ df_above_low [at_12_36] = []
  ∧ stocks_20_above_low [at_12_36] = [].
Proof.
  split; [reflexivity|]. split; [reflexivity|].
  split; [by vm_compute|]. split; [by vm_compute|]. split; by vm_compute.
Qed.

(** The thresholds are products rounded to binary64: 0.70 * 90 is
    62.99999999999999, so a last price of 63 under a high of 90 is not
    selected, and 1.20 * 100.2 is 120.24, so a last price of 120.24 over a
    low of 100.2 is. *)
Lemma thresholds_are_rounded_products :
  0x1.6666666666666p-1 * 90 = 0x1.f7fffffffffffp+5
  ∧ below_high_cond (quote_row "P63" nan 63 90 nan) = false
  ∧ 0x1.3333333333333p+0 * 0x1.90ccccccccccdp+6 = 0x1.e0f5c28f5c28fp+6
  ∧ above_low_cond at_120_24 = true.
Proof. repeat split; by vm_compute. Qed.

(** A cell that is blank or holds text that denotes no number is missing
    after the coercion. *)
Lemma coercion_failure_is_missing (c : Cell float) :
  (c = Blank ∨ ∃ t, c = Text t) → is_nan (to_numeric c) = true.
Proof. by intros [-> | [t ->]]. Qed.

(** C9: a row whose last price or 52-week high is missing after the
    coercion is in neither the below-high frame nor its view, and a row
    whose last price or 52-week low is missing is in neither the above-low
    frame nor its view. *)
Theorem missing_value_never_selected (raw : list (Row (Cell float)))
    (r : Row (Cell float)) (m : float) :
  ((is_nan (to_numeric (lastPrice r)) = true
    ∨ is_nan (to_numeric (yearHigh r)) = true) →
   ((coerce_row r, m) ∉ df_below_high (coerce_frame raw))
   ∧ ((coerce_row r, m) ∉ stocks_30_below_high (coerce_frame raw)))
  ∧ ((is_nan (to_numeric (lastPrice r)) = true
      ∨ is_nan (to_numeric (yearLow r)) = true) →
     ((coerce_row r, m) ∉ df_above_low (coerce_frame raw))
     ∧ ((coerce_row r, m) ∉ stocks_20_above_low (coerce_frame raw))).
Proof.
  split; intros Hmiss.
  - assert ((coerce_row r, m) ∉ df_below_high (coerce_frame raw)) as Hout.
    { unfold df_below_high. rewrite filtered_frame. intros (_ & Hc & _).
      rewrite (below_high_needs_values (coerce_row r)) in Hc; done. }
    split; [done|]. intros Hin%head_subset.
    apply Hout. by rewrite <- (sort_values_perm snd false).
  - assert ((coerce_row r, m) ∉ df_above_low (coerce_frame raw)) as Hout.
    { unfold df_above_low. rewrite filtered_frame. intros (_ & Hc & _).
      rewrite (above_low_needs_values (coerce_row r)) in Hc; done. }
    split; [done|]. intros Hin%head_subset.
    apply Hout. by rewrite <- (sort_values_perm snd false).
Qed.

Lemma missing_value_never_selected_witness :
  ((coerce_row unreadable, nan) ∉ df_below_high (coerce_frame raw_sample))
  ∧ ((coerce_row unreadable, nan) ∉ df_above_low (coerce_frame raw_sample)).
Proof.
  pose proof (missing_value_never_selected raw_sample unreadable nan)
    as [Hb Ha].
  split.
  - apply Hb. left. reflexivity.
  - apply Ha. left. reflexivity.
Defined.

(** C10, counterexample: last price 120.24 and low 100.2 pass the
    above-low filter, the low is positive, and the metric computed in
    binary64 is 19.999999999999993, below 20. *)
Lemma rounding_breaks_above_low_bound :
  df_above_low [at_120_24] = [(at_120_24, 0x1.3fffffffffffep+4)]
  ∧ stocks_20_above_low [at_120_24] = [(at_120_24, 0x1.3fffffffffffep+4)]
  ∧ (0 <? yearLow at_120_24) = true
  ∧ (20 <=? 0x1.3fffffffffffep+4) = false
  ∧ (0x1.3fffffffffffep+4 <? 20) = true.
Proof. repeat split; by vm_compute. Qed.

(** The below-high bound is missed as well, at the bottom of the range:
    0.70 times the smallest positive double rounds to that double. *)
Lemma rounding_breaks_below_high_bound :
  df_below_high [at_tiny] = [(at_tiny, 0)]
  ∧ stocks_30_below_high [at_tiny] = [(at_tiny, 0)]
  ∧ (0 <? yearHigh at_tiny) = true
  ∧ (30 <=? 0) = false.
Proof. repeat split; by vm_compute. Qed.

Local Close Scope float_scope.

(** ** The claims, in exact arithmetic *)

Local Open Scope Q_scope.

Lemma exact_leb (x y : option Q) :
  num_leb x y = true → ∃ a b, x = Some a ∧ y = Some b ∧ a <= b.
Proof.
  destruct x as [a|], y as [b|]; simpl; try done.
  intros Hle%Qle_bool_iff. eauto.
Qed.

Lemma Qeq_bool_pos (q : Q) : 0 < q → Qeq_bool q 0 = false.
Proof.
  intros Hq. destruct (Qeq_bool q 0) eqn:E; [|done].
  apply Qeq_bool_iff in E. rewrite E in Hq. by apply Qlt_irrefl in Hq.
Qed.

(** C10 (as amended): over the rationals, where nothing is rounded, a row
    of the below-high frame whose 52-week high is positive has a metric of
    at least 30, and a row of the above-low frame whose 52-week low is
    positive has a metric of at least 20. *)
Theorem thresholds_bound_metrics_exact (df : list (Row (option Q)))
    (r : Row (option Q)) (m : option Q) :
  ((r, m) ∈ df_below_high df →
   ∀ yh, yearHigh r = Some yh → 0 < yh → ∃ p, m = Some p ∧ 30 <= p)
  ∧ ((r, m) ∈ df_above_low df →
     ∀ yl, yearLow r = Some yl → 0 < yl → ∃ p, m = Some p ∧ 20 <= p).
Proof.
  split.
  - unfold df_below_high. rewrite filtered_frame.
    intros (_ & Hc & ->) yh Hyh Hpos.
    unfold below_high_cond, pctBelowHigh in *. rewrite Hyh in *.
    apply exact_leb in Hc as (lp & b & -> & [= <-] & Hle). simpl.
    rewrite (Qeq_bool_pos yh Hpos). eexists. split; [done|].
    assert (3 # 10 <= (yh - lp) / yh) as Hq.
    { apply Qle_shift_div_l; [done|]. lra. }
    lra.
  - unfold df_above_low. rewrite filtered_frame.
    intros (_ & Hc & ->) yl Hyl Hpos.
    unfold above_low_cond, pctAboveLow in *. rewrite Hyl in *.
    apply exact_leb in Hc as (a & lp & [= <-] & -> & Hle). simpl.
    rewrite (Qeq_bool_pos yl Hpos). eexists. split; [done|].
    assert (2 # 10 <= (lp - yl) / yl) as Hq.
    { apply Qle_shift_div_l; [done|]. lra. }
    lra.
Qed.

Lemma thresholds_bound_metrics_exact_witness :
  (∃ p, pctBelowHigh exact_69 = Some p ∧ 30 <= p)
  ∧ (∃ p, pctAboveLow exact_69 = Some p ∧ 20 <= p).
Proof.
  split.
  - apply (proj1 (thresholds_bound_metrics_exact [exact_69] exact_69
                    (pctBelowHigh exact_69)))
      with (yh := 100 # 1); [| reflexivity | reflexivity].
    vm_compute. apply list_elem_of_here.
  - apply (proj2 (thresholds_bound_metrics_exact [exact_69] exact_69
                    (pctAboveLow exact_69)))
      with (yl := 50 # 1); [| reflexivity | reflexivity].
    vm_compute. apply list_elem_of_here.
Defined.

End AnalyzerProps.

(* ===================================================================== *)
(** * Part V. Further properties of the Fetcher                          *)
(* ===================================================================== *)

Module FetcherMore.
Import Fetcher FetcherProps.

(** ** Up to the write step *)

(** The run up to the write step, when nothing fails on the way. *)
Lemma scrape_reaches_write env name s r1 r2 d rows :
  session_get env homepage_url 5 = Ok r1 → status_code r1 = 200 →
  session_get env api_url 10 = Ok r2 → status_code r2 = 200 →
  parse_body env r2 = Ok (PDict d) →
  d !! "data" = Some rows → truthy rows = true →
  scrape_nifty50_data env name s
  = write_csv env name rows (printed s [RespStatus 200; RespHeaders (headers r2)]).
Proof.
  intros Hhome Hc1 Hapi Hc2 Hparse Hdata Hrows.
  rewrite scrape_unfold, prime_session_run, Hhome, Hc1. simpl.
  rewrite fetch_data_run, Hapi, Hc2, Hparse. simpl. rewrite Hdata.
  change (default (PList []) (Some rows)) with rows. by rewrite Hrows.
Qed.

(** A call stops before the write step, without the success message, or it
    reaches the write step with a truthy row list. *)
Lemma scrape_reach env name s :
  (∃ o out,
      call (scrape_nifty50_data env name) s = (o, printed s out)
      ∧ last out ≠ Some (DataSaved name))
  ∨ (∃ r1 r2 d rows,
        session_get env homepage_url 5 = Ok r1 ∧ status_code r1 = 200
        ∧ session_get env api_url 10 = Ok r2 ∧ status_code r2 = 200
        ∧ parse_body env r2 = Ok (PDict d)
        ∧ d !! "data" = Some rows ∧ truthy rows = true).
Proof.
  unfold call. rewrite scrape_unfold, prime_session_run.
  destruct (session_get env homepage_url 5) as [r1|e1] eqn:Hhome.
  2:{ left. destruct (isinstance_RequestException e1).
      - by eexists _, _.
      - exists (Escaped e1), []. by rewrite printed_nil. }
  destruct (bool_decide (status_code r1 ≠ 200)) eqn:Hc1.
  { left. by eexists _, _. }
  apply bool_decide_eq_false in Hc1. apply dec_stable in Hc1.
  rewrite fetch_data_run.
  destruct (session_get env api_url 10) as [r2|e2] eqn:Hapi.
  2:{ left. destruct (isinstance_RequestException e2).
      - by eexists _, _.
      - exists (Escaped e2), []. by rewrite printed_nil. }
  cbv zeta. destruct (bool_decide (status_code r2 ≠ 200)) eqn:Hc2.
  { left. by eexists _, _. }
  apply bool_decide_eq_false in Hc2. apply dec_stable in Hc2.
  destruct (parse_body env r2) as [data|e3] eqn:Hparse.
  2:{ left. destruct (isinstance_RequestException e3); by eexists _, _. }
  destruct data as [| | | | | |d]; try (left; by eexists _, _).
  simpl py_get. cbv iota.
  destruct (d !! "data") as [rows|] eqn:Hdata.
  2:{ left. simpl. eexists _, _. rewrite printed_app. by split. }
  change (default (PList []) (Some rows)) with rows.
  destruct (truthy rows) eqn:Hrows.
  - right. by exists r1, r2, d, rows.
  - left. simpl. eexists _, _. rewrite printed_app. by split.
Qed.

(** X1: when the priming request succeeded and the data request answers
    with a status other than 200 or raises a [RequestException], the call
    prints its diagnostics (status, headers, error and body; or the one
    error line), leaves the file system as it was and returns. *)
Theorem api_failure_aborts env name s r1 :
  session_get env homepage_url 5 = Ok r1 → status_code r1 = 200 →
  request_fails env api_url 10 →
  ∃ out,
    call (scrape_nifty50_data env name) s
    = (Returned, {| fs := fs s; stdout := stdout s ++ out |})
    ∧ ((∃ r, out = [ RespStatus (status_code r); RespHeaders (headers r);
                     ErrHttp (status_code r); RespContent (text r) ])
       ∨ (∃ e, out = [ErrFetch api_url e])).
Proof.
  intros Hhome Hc1 Hfail. unfold call.
  rewrite scrape_unfold, prime_session_run, Hhome, Hc1. simpl.
  rewrite fetch_data_run.
  destruct Hfail as [(r & -> & Hcode) | (e & -> & ->)].
  - cbv zeta. rewrite bool_decide_eq_true_2 by done. eauto 10.
  - eauto 10.
Qed.

Lemma api_failure_aborts_witness :
  ∃ out,
    call (scrape_nifty50_data env_api_down target) disk_with_old_file
    = (Returned,
       {| fs := fs disk_with_old_file;
          stdout := stdout disk_with_old_file ++ out |})
    ∧ ((∃ r, out = [ RespStatus (status_code r); RespHeaders (headers r);
                     ErrHttp (status_code r); RespContent (text r) ])
       ∨ (∃ e, out = [ErrFetch api_url e])).
Proof.
  apply (api_failure_aborts env_api_down target disk_with_old_file (page 200));
    [reflexivity | reflexivity |].
  left. exists (page 503). split; [reflexivity | simpl; lia].
Defined.

(** X2: when the payload is an object without ["data"], or with a
    ["data"] that is empty or otherwise falsy, the call prints that no
    stock data was found, leaves the file system as it was and returns. *)
Theorem no_rows_aborts env name s r1 r2 d :
  session_get env homepage_url 5 = Ok r1 → status_code r1 = 200 →
  session_get env api_url 10 = Ok r2 → status_code r2 = 200 →
  parse_body env r2 = Ok (PDict d) →
  d !! "data" = None ∨ (∃ v, d !! "data" = Some v ∧ truthy v = false) →
  call (scrape_nifty50_data env name) s
  = (Returned,
     {| fs := fs s;
        stdout := stdout s ++ [ RespStatus 200; RespHeaders (headers r2);
                                NoStockData ] |}).
Proof.
  intros Hhome Hc1 Hapi Hc2 Hparse Hdata. unfold call.
  rewrite scrape_unfold, prime_session_run, Hhome, Hc1. simpl.
  rewrite fetch_data_run, Hapi, Hc2, Hparse. simpl.
  destruct Hdata as [-> | (v & -> & Hv)].
  - simpl. by rewrite printed_app.
  - change (default (PList []) (Some v)) with v. rewrite Hv. simpl.
    by rewrite printed_app.
Qed.

Lemma no_rows_aborts_witness :
  call (scrape_nifty50_data env_no_rows target) disk_with_old_file
  = (Returned,
     {| fs := fs disk_with_old_file;
        stdout := stdout disk_with_old_file
                  ++ [RespStatus 200; RespHeaders "{}"; NoStockData] |}).
Proof.
  apply (no_rows_aborts env_no_rows target disk_with_old_file (page 200)
           (api_reply (PDict ∅)) ∅); try reflexivity.
  left. reflexivity.
Defined.

(** X3: when the body parses to something that is not an object (an
    array, a string, a number, null), looking up ["data"] raises
    [AttributeError], which escapes the call; the file system is as it
    was and nothing is printed about it. *)
Theorem non_object_payload_escapes env name s r1 r2 v :
  session_get env homepage_url 5 = Ok r1 → status_code r1 = 200 →
  session_get env api_url 10 = Ok r2 → status_code r2 = 200 →
  parse_body env r2 = Ok v → (∀ d, v ≠ PDict d) →
  call (scrape_nifty50_data env name) s
  = (Escaped (AttributeError "object has no attribute 'get'"),
     {| fs := fs s;
        stdout := stdout s ++ [RespStatus 200; RespHeaders (headers r2)] |}).
Proof.
  intros Hhome Hc1 Hapi Hc2 Hparse Hv. unfold call.
  rewrite scrape_unfold, prime_session_run, Hhome, Hc1. simpl.
  rewrite fetch_data_run, Hapi, Hc2, Hparse. simpl.
  destruct v; try done. by destruct (Hv d).
Qed.

Lemma non_object_payload_escapes_witness :
  call (scrape_nifty50_data env_list_payload target) disk_with_old_file
  = (Escaped (AttributeError "object has no attribute 'get'"),
     {| fs := fs disk_with_old_file;
        stdout := stdout disk_with_old_file
                  ++ [RespStatus 200; RespHeaders "{}"] |}).
Proof.
  apply (non_object_payload_escapes env_list_payload target disk_with_old_file
           (page 200) (api_reply (PList [])) (PList []));
    try reflexivity.
  intros d. discriminate.
Defined.

(** X4: an exception of either request that is not a [RequestException]
    escapes the call at once: nothing is printed and the file system is as
    it was. *)
Theorem foreign_exception_escapes env name s e :
  session_get env homepage_url 5 = Raise e
  ∨ (∃ r1, session_get env homepage_url 5 = Ok r1 ∧ status_code r1 = 200
           ∧ session_get env api_url 10 = Raise e) →
  isinstance_RequestException e = false →
  call (scrape_nifty50_data env name) s = (Escaped e, s).
Proof.
  intros Hraise He. unfold call. rewrite scrape_unfold, prime_session_run.
  destruct Hraise as [-> | (r1 & -> & -> & Hapi)].
  - by rewrite He.
  - simpl. by rewrite fetch_data_run, Hapi, He.
Qed.

Lemma foreign_exception_escapes_witness :
  call (scrape_nifty50_data env_interrupted target) disk_with_old_file
  = (Escaped KeyboardInterrupt, disk_with_old_file).
Proof.
  apply (foreign_exception_escapes env_interrupted target disk_with_old_file
           KeyboardInterrupt); [left|]; reflexivity.
Defined.

(** X5: whatever happens, the call leaves every file other than the
    target as it was. *)
Theorem other_files_untouched env name s other :
  other ≠ name →
  fs (call (scrape_nifty50_data env name) s).2 !! other = fs s !! other.
Proof.
  intros Hne.
  destruct (scrape_cases env name s)
    as [(o & out & -> & _) | (_ & pre & body & d & -> & _)]; simpl; [done|].
  by rewrite lookup_insert_ne.
Qed.

Lemma other_files_untouched_witness :
  fs (call (scrape_nifty50_data env_ok "gainers_losers.png") disk_with_old_file).2
    !! target
  = fs disk_with_old_file !! target.
Proof.
  apply (other_files_untouched env_ok "gainers_losers.png" disk_with_old_file
           target).
  discriminate.
Defined.

(** ** Inside the write step *)

(** X6: when the run reaches the write step and [open] raises an
    [Exception] (a missing directory, a permission), the call prints the
    write error, leaves the file system as it was and returns. *)
Theorem open_failure_reported env name s r1 r2 d rows e :
  session_get env homepage_url 5 = Ok r1 → status_code r1 = 200 →
  session_get env api_url 10 = Ok r2 → status_code r2 = 200 →
  parse_body env r2 = Ok (PDict d) →
  d !! "data" = Some rows → truthy rows = true →
  open_w env name = Some e → isinstance_Exception e = true →
  call (scrape_nifty50_data env name) s
  = (Returned,
     {| fs := fs s;
        stdout := stdout s ++ [ RespStatus 200; RespHeaders (headers r2);
                                ErrCsv e ] |}).
Proof.
  intros Hhome Hc1 Hapi Hc2 Hparse Hdata Hrows Hopen He. unfold call.
  rewrite (scrape_reaches_write env name s r1 r2 d rows) by done.
  rewrite (write_csv_open_fails _ _ _ _ e Hopen), He.
  unfold printed. simpl. by rewrite <- app_assoc.
Qed.

Lemma open_failure_reported_witness :
  call (scrape_nifty50_data env_readonly target) disk_with_old_file
  = (Returned,
     {| fs := fs disk_with_old_file;
        stdout := stdout disk_with_old_file
                  ++ [ RespStatus 200; RespHeaders "{}";
                       ErrCsv (OSError "Permission denied") ] |}).
Proof.
  apply (open_failure_reported env_readonly target disk_with_old_file
           (page 200) (api_reply (payload [PDict tcs; PDict infy]))
           {[ "data" := PList [PDict tcs; PDict infy] ]}
           (PList [PDict tcs; PDict infy]) (OSError "Permission denied"));
    reflexivity.
Defined.







Lemma same_cells_record env o1 o2 :
  same_cells env o1 o2 →
  csv_record env (project o1) = csv_record env (project o2).
Proof.
  intros Hsame. unfold csv_record, project. do 2 f_equal.
  rewrite <- !list_fmap_compose. apply list_fmap_ext.
  intros i k Hk%list_elem_of_lookup_2. unfold csv_field. simpl.
  by rewrite (Hsame k Hk).
Qed.

Lemma for_each_same_cells env name ds1 ds2 s :
  Forall2 (same_cells env) ds1 ds2 →
  for_each (PDict <$> ds1) (row_step env name) s
  = for_each (PDict <$> ds2) (row_step env name) s.
Proof.
  intros Hsame. revert s.
  induction Hsame as [|o1 o2 ds1 ds2 Ho _ IH]; intros s; [done|].
  simpl. munfold.
  rewrite !row_step_write, (same_cells_record env o1 o2 Ho).
  destruct (file_write env name (csv_record env (project o2)) s)
    as [[[]| |e] s1]; [apply IH | done | done].
Qed.

(** X9: the write step reads of each object only what its fourteen schema
    fields render to: fields outside the schema are dropped, and a field
    that is null, an empty string or absent gives the same empty cell.  Two
    row lists that agree on that give the same file and messages. *)
Theorem only_schema_cells_matter env name s ds1 ds2 :
  Forall2 (same_cells env) ds1 ds2 →
  write_csv env name (PList (PDict <$> ds1)) s
  = write_csv env name (PList (PDict <$> ds2)) s.
Proof.
  intros Hsame. unfold write_csv. munfold.
  destruct (file_open_w env name s) as [[[]| |e1] s1]; [|done|done].
  destruct (writeheader env name csv_headers s1) as [[[]| |e2] s2];
    [|done|done].
  simpl. by rewrite (for_each_same_cells env name ds1 ds2 s2 Hsame).
Qed.

Lemma only_schema_cells_matter_witness :
  write_csv env_ok target (PList (PDict <$> [infy_padded])) empty_disk
  = write_csv env_ok target (PList (PDict <$> [infy])) empty_disk.
Proof.
  apply (only_schema_cells_matter env_ok target empty_disk).
  constructor; [|constructor].
  intros k Hk. unfold csv_headers in Hk.
  repeat (apply elem_of_cons in Hk as [-> | Hk]; [reflexivity|]).
  by apply elem_of_nil in Hk.
Defined.

(** ** What the success message means *)

Lemma for_each_normal_inv env name stocks c fs0 out s' :
  for_each stocks (row_step env name) (holding name c fs0 out) = (Normal tt, s') →
  ∃ ds, stocks = PDict <$> ds
        ∧ s' = holding name (c +:+ records (csv_record env ∘ project <$> ds))
                 fs0 out.
Proof.
  revert c. induction stocks as [|v stocks IH]; intros c; simpl.
  - intros [= <-]. exists []. by rewrite append_nil_r.
  - munfold. destruct v as [| | | | | |d];
      try (rewrite row_step_other by done; discriminate).
    destruct (encodable env (csv_record env (project d))) eqn:Hd;
      [|rewrite row_step_unencodable by done; discriminate].
    rewrite row_step_dict by done. intros Hrest.
    destruct (for_each stocks (row_step env name)
                (holding name (c +:+ csv_record env (project d)) fs0 out))
      as [[[]| |e] s''] eqn:Hloop; try discriminate.
    injection Hrest as <-.
    destruct (IH _ Hloop) as (ds & -> & ->).
    exists (d :: ds). split; [done|]. by rewrite append_assoc.
Qed.

(** The write step ends with the success message only after a loop over a
    list of objects. *)
Lemma write_csv_saved_inv env name rows s out0 s' :
  truthy rows = true →
  write_csv env name rows s = (Normal tt, s') →
  stdout s' = out0 ++ [DataSaved name] →
  ∃ ds, rows = PList (PDict <$> ds)
        ∧ fs s' = <[name := header_line
                             +:+ records (csv_record env ∘ project <$> ds)]>
                    (fs s).
Proof.
  intros Hrows. destruct (open_w env name) as [e|] eqn:Hopen.
  { rewrite (write_csv_open_fails _ _ _ _ e Hopen).
    destruct (isinstance_Exception e); [|done].
    intros [= <-]. simpl. intros Hout. by apply app_inj_tail in Hout as [_ ?]. }
  unfold write_csv. munfold. unfold file_open_w, writeheader. rewrite Hopen.
  change {| fs := <[name:=EmptyString]> (fs s); stdout := stdout s |}
    with (holding name EmptyString (fs s) (stdout s)).
  rewrite header_record, file_write_holding by apply header_encodable.
  change (EmptyString +:+ header_line) with header_line. simpl.
  destruct (py_iter rows) as [stocks|e] eqn:Hiter; simpl.
  - destruct (for_each stocks (row_step env name)
                (holding name header_line (fs s) (stdout s)))
      as [[[]| |e] s''] eqn:Hloop.
    + destruct (for_each_normal_inv _ _ _ _ _ _ _ Hloop) as (ds & -> & ->).
      intros [= <-] _. exists ds. split; [|done].
      destruct rows as [| | | |t|l|d0]; simpl in Hiter; simplify_eq.
      * destruct t as [|c t]; [done|]. destruct ds; simplify_eq/=.
      * done.
      * simpl in Hrows.
        destruct (map_to_list d0) as [|[k v] kvs]; [done|].
        destruct ds; simplify_eq/=.
    + done.
    + destruct (isinstance_Exception e); [|done].
      intros [= <-]. simpl. intros Hout.
      by apply app_inj_tail in Hout as [_ ?].
  - destruct (isinstance_Exception e); [|done].
    intros [= <-]. simpl. intros Hout. by apply app_inj_tail in Hout as [_ ?].
Qed.

(** X10: the success message is never printed over a partial file.  A run
    that ends with it had a payload whose ["data"] is a non-empty list of
    objects, and its target holds the header and one record for each of
    them, the other files being as they were. *)
Theorem success_message_means_complete_file env name s out :
  stdout (call (scrape_nifty50_data env name) s).2 = stdout s ++ out →
  last out = Some (DataSaved name) →
  ∃ r2 d ds,
    session_get env api_url 10 = Ok r2
    ∧ parse_body env r2 = Ok (PDict d)
    ∧ d !! "data" = Some (PList (PDict <$> ds))
    ∧ ds ≠ []
    ∧ fs (call (scrape_nifty50_data env name) s).2
      = <[name := header_line
                  +:+ records ((fun o => csv_record env (project o)) <$> ds)]>
          (fs s).
Proof.
  intros Hout Hlast.
  destruct (scrape_reach env name s)
    as [(o & out' & Hcall & Hno)
       | (r1 & r2 & d & rows & Hhome & Hc1 & Hapi & Hc2 & Hparse & Hdata & Hrows)].
  { rewrite Hcall in Hout. simpl in Hout. apply app_inv_head in Hout.
    by subst. }
  unfold call in *.
  rewrite (scrape_reaches_write env name s r1 r2 d rows) in * by done.
  set (seen := [RespStatus 200; RespHeaders (headers r2)]) in *.
  destruct (write_csv env name rows (printed s seen)) as [[[]| |e] s'] eqn:Hw;
    simpl in *.
  - destruct out as [|d0 out _] using rev_ind; [done|].
    rewrite last_snoc in Hlast. injection Hlast as ->.
    rewrite app_assoc in Hout.
    destruct (write_csv_saved_inv env name rows _ _ _ Hrows Hw Hout)
      as (ds & -> & Hfs).
    exists r2, d, ds. repeat (split; [done|]).
    split; [by destruct ds|]. exact Hfs.
  - destruct (open_w env name) as [e|] eqn:Hopen.
    + rewrite (write_csv_open_fails _ _ _ _ e Hopen) in Hw.
      by destruct (isinstance_Exception e).
    + destruct (write_csv_opened env name rows (printed s seen) Hopen)
        as (body & d0 & Hw' & _). congruence.
  - destruct (open_w env name) as [e'|] eqn:Hopen.
    + rewrite (write_csv_open_fails _ _ _ _ e' Hopen) in Hw.
      destruct (isinstance_Exception e'); simplify_eq.
      simpl in Hout. apply app_inv_head in Hout. by subst.
    + destruct (write_csv_opened env name rows (printed s seen) Hopen)
        as (body & d0 & Hw' & _). congruence.
Qed.

Lemma success_message_means_complete_file_witness :
  ∃ r2 d ds,
    session_get env_ok api_url 10 = Ok r2
    ∧ parse_body env_ok r2 = Ok (PDict d)
    ∧ d !! "data" = Some (PList (PDict <$> ds))
    ∧ ds ≠ []
    ∧ fs (call (scrape_nifty50_data env_ok target) disk_with_old_file).2
      = <[target := header_line
                    +:+ records ((fun o => csv_record env_ok (project o)) <$> ds)]>
          (fs disk_with_old_file).
Proof.
  apply (success_message_means_complete_file env_ok target disk_with_old_file
           [RespStatus 200; RespHeaders "{}"; DataSaved target]);
    reflexivity.
Defined.

(** ** A record that cannot be encoded *)




End FetcherMore.

(* ===================================================================== *)
(** * Part VI. Further properties of the Analyzer                        *)
(* ===================================================================== *)

Module AnalyzerMore.
Import Analyzer AnalyzerProps.

Section MoreSorting.
Context {A : Type} `{NumericLaws A} {R : Type}.
Implicit Types (key : R → A) (df : list R).




(** The first [n] rows all have a key when at least [n] rows have one. *)
Lemma head_present key asc n df :
  (n ≤ length (List.filter (fun r => negb (num_isna (key r))) df))%nat →
  Forall (present key) (head n (sort_values key asc df)).
Proof.
  intros Hn. unfold head, sort_values.
  assert (Forall (present key)
            (List.filter (fun r => negb (num_isna (key r))) df)) as Hpres.
  { apply Forall_forall. intros r [_ Hr]%list_elem_of_In%filter_In.
    by apply negb_true_iff in Hr. }
  destruct (isort_sorted key asc _ Hpres) as [_ Hsorted].
  rewrite take_app_le by (by rewrite isort_perm).
  by apply Forall_take.
Qed.

(** A frame of at most [n] rows is shown whole. *)
Lemma head_short key asc n df :
  (length df ≤ n)%nat → head n (sort_values key asc df) ≡ₚ df.
Proof.
  intros Hn. unfold head. rewrite take_ge by (by rewrite sort_values_perm).
  apply sort_values_perm.
Qed.

End MoreSorting.

Local Open Scope float_scope.



(** X12: a row without a daily change appears among the gainers or the
    losers only when fewer than five rows have one, and likewise a row
    without a 30-day change among the 30-day leaders. *)
Theorem missing_rows_rank_after_present (df : list (Row float)) :
  ((5 ≤ length (List.filter (fun r => negb (is_nan (pChange r))) df))%nat →
   Forall (fun r => is_nan (pChange r) = false) (top5_gainers df)
   ∧ Forall (fun r => is_nan (pChange r) = false) (top5_losers df))
  ∧ ((5 ≤ length (List.filter (fun r => negb (is_nan (perChange30d r))) df))%nat →
     Forall (fun r => is_nan (perChange30d r) = false) (top30_returns df)).
Proof.
  split; [intros Hn; split | intros Hn].
  - exact (head_present pChange false 5 df Hn).
  - exact (head_present pChange true 5 df Hn).
  - exact (head_present perChange30d false 5 df Hn).
Qed.

Lemma missing_rows_rank_after_present_witness :
  (Forall (fun r => is_nan (pChange r) = false)
     (top5_gainers (at_69 :: movers_sample))
   ∧ Forall (fun r => is_nan (pChange r) = false)
       (top5_losers (at_69 :: movers_sample)))
  ∧ Forall (fun r => is_nan (perChange30d r) = false)
      (top30_returns (at_69 :: returns_sample)).
Proof.
  split.
  - apply (proj1 (missing_rows_rank_after_present (at_69 :: movers_sample))).
    vm_compute. lia.
  - apply (proj2 (missing_rows_rank_after_present (at_69 :: returns_sample))).
    vm_compute. lia.
Defined.

(** X13: a frame of at most five rows is shown whole by the gainers, the
    losers and the 30-day leaders, and a filter that at most five rows pass
    shows all of them: no padding, no error. *)
Theorem short_frames_shown_whole (df : list (Row float)) :
  ((length df ≤ 5)%nat →
   top5_gainers df ≡ₚ df ∧ top5_losers df ≡ₚ df ∧ top30_returns df ≡ₚ df)
  ∧ ((length (df_below_high df) ≤ 5)%nat →
     stocks_30_below_high df ≡ₚ df_below_high df)
  ∧ ((length (df_above_low df) ≤ 5)%nat →
     stocks_20_above_low df ≡ₚ df_above_low df).
Proof.
  split; [intros Hn; split; [|split] | split; intros Hn]; by apply head_short.
Qed.

Lemma short_frames_shown_whole_witness :
  (top5_gainers movers_sample ≡ₚ movers_sample
   ∧ top5_losers movers_sample ≡ₚ movers_sample
   ∧ top30_returns movers_sample ≡ₚ movers_sample)
  ∧ stocks_30_below_high [at_71; at_69] ≡ₚ df_below_high [at_71; at_69]
  ∧ stocks_20_above_low [at_119; at_121] ≡ₚ df_above_low [at_119; at_121].
Proof.
  split; [|split].
  - apply (proj1 (short_frames_shown_whole movers_sample)). simpl. lia.
  - apply (proj1 (proj2 (short_frames_shown_whole [at_71; at_69]))).
    vm_compute. lia.
  - apply (proj2 (proj2 (short_frames_shown_whole [at_119; at_121]))).
    vm_compute. lia.
Defined.

(** ** Division by a zero 52-week low *)

Lemma Prim2SF_inj (x y : float) : Prim2SF x = Prim2SF y → x = y.
Proof.
  intros E. by rewrite <- (SF2Prim_Prim2SF x), <- (SF2Prim_Prim2SF y), E.
Qed.

Lemma positive_cases (x : float) :
  (0 <? x) = true →
  (∃ m e, Prim2SF x = S754_finite false m e) ∨ Prim2SF x = S754_infinity false.
Proof.
  rewrite ltb_spec. change (Prim2SF 0) with (S754_zero false).
  destruct (Prim2SF x) as [s|[]| |[] m e]; try done; eauto.
Qed.

(** A positive price over a zero divides to infinity. *)
Lemma positive_over_zero (x : float) :
  (0 <? x) = true → (x - 0) / 0 * 100 = infinity.
Proof.
  intros Hx. apply Prim2SF_inj.
  rewrite mul_spec, div_spec, sub_spec.
  change (Prim2SF 0) with (S754_zero false).
  destruct (positive_cases x Hx) as [(m & e & ->) | ->]; reflexivity.
Qed.

(** X14: a row whose 52-week low is zero and whose last price is positive
    passes the above-low filter, and its metric is a division by zero: no
    error is raised, the metric is infinite. *)
Theorem zero_low_is_selected_with_infinite_metric
    (df : list (Row float)) (r : Row float) :
  r ∈ df → yearLow r = 0 → (0 <? lastPrice r) = true →
  above_low_cond r = true
  ∧ pctAboveLow r = infinity
  ∧ (r, infinity) ∈ df_above_low df.
Proof.
  intros Hin Hlow Hpos.
  assert (above_low_cond r = true) as Hc.
  { unfold above_low_cond. simpl. rewrite Hlow.
    change (0x1.3333333333333p+0 * 0) with 0.
    rewrite leb_spec. change (Prim2SF 0) with (S754_zero false).
    destruct (positive_cases _ Hpos) as [(m & e & ->) | ->]; reflexivity. }
  assert (pctAboveLow r = infinity) as Hm.
  { unfold pctAboveLow. simpl. rewrite Hlow. by apply positive_over_zero. }
  split; [done|]. split; [done|].
  unfold df_above_low. apply filtered_frame. by rewrite Hm.
Qed.

Lemma zero_low_is_selected_with_infinite_metric_witness :
  above_low_cond at_zero_low = true
  ∧ pctAboveLow at_zero_low = infinity
  ∧ (at_zero_low, infinity) ∈ df_above_low [at_121; at_zero_low].
Proof.
  apply (zero_low_is_selected_with_infinite_metric [at_121; at_zero_low]);
    [| reflexivity | reflexivity].
  apply list_elem_of_further, list_elem_of_here.
Defined.

End AnalyzerMore.

(* ===================================================================== *)
(** * Part VII. Properties of the main block                             *)
(* ===================================================================== *)

Module MainProps.
Import Fetcher Analyzer FetcherProps Main.

(** A failed fetch returns with the file system as it was. *)
Lemma fetch_fails_returns env name s :
  fetch_fails env →
  ∃ out, call (scrape_nifty50_data env name) s = (Returned, printed s out).
Proof.
  intros Hfail. unfold call. rewrite scrape_unfold, prime_session_run.
  destruct Hfail as [[(r & -> & Hc) | (e & -> & ->)]
                    | [(r1 & -> & ->) Hapi]].
  - rewrite bool_decide_eq_true_2 by done. eauto.
  - eauto.
  - simpl. rewrite fetch_data_run.
    destruct Hapi as [(r & -> & Hc) | (e & -> & ->)].
    + cbv zeta. rewrite bool_decide_eq_true_2 by done. eauto.
    + eauto.
Qed.

Section Script.
Variable read_csv : string -> result (list (Row (Cell float))).
Variable tables : list (Row (Cell float)) -> Report.
Variable savefig : list (string * float) -> list (string * float) -> Plot.


(** X15: the main block runs the Analyzer whatever the Fetcher did.  When
    a request of the Fetcher fails and there is no file from an earlier
    run, the script ends with the [OSError] of the missing file: no report,
    no chart. *)
Theorem main_fails_without_file env s :
  fetch_fails env → fs s !! target = None →
  ∃ out,
    main read_csv tables savefig env s
    = (Escaped (OSError "No such file or directory"),
       {| fs := fs s; stdout := stdout s ++ out |}, None).
Proof.
  intros Hfail Hnone. unfold main.
  destruct (fetch_fails_returns env target s Hfail) as [out Hcall].
  change "nifty50_data.csv" with target. rewrite Hcall.
  unfold analyze_and_visualize. simpl. rewrite Hnone. by exists out.
Qed.


(** X17: when the body of the data request cannot be parsed either way,
    the exception that escapes the Fetcher ends the script: the Analyzer
    does not run, even if a file from an earlier run is there. *)
Theorem main_stops_on_unparsable_body env s r1 r2 e :
  session_get env homepage_url 5 = Ok r1 → status_code r1 = 200 →
  session_get env api_url 10 = Ok r2 → status_code r2 = 200 →
  parse_body env r2 = Raise e → isinstance_RequestException e = false →
  main read_csv tables savefig env s
  = (Escaped e,
     {| fs := fs s;
        stdout := stdout s ++ [RespStatus 200; RespHeaders (headers r2)] |},
     None).
Proof.
  intros Hhome Hc1 Hapi Hc2 Hparse He. unfold main.
  change "nifty50_data.csv" with target.
  by rewrite (unparsable_body_escapes env target s r1 r2 e).
Qed.


End Script.

Lemma main_fails_without_file_witness :
  ∃ out,
    main sample_read_csv sample_tables sample_savefig env_forbidden empty_disk
    = (Escaped (OSError "No such file or directory"),
       {| fs := fs empty_disk; stdout := stdout empty_disk ++ out |}, None).
Proof.
  apply (main_fails_without_file sample_read_csv sample_tables sample_savefig
           env_forbidden empty_disk); [|reflexivity].
  left. left. exists (page 403). split; [reflexivity | simpl; lia].
Defined.


Lemma main_stops_on_unparsable_body_witness :
  main sample_read_csv sample_tables sample_savefig env_html disk_with_old_file
  = (Escaped (BadGzipFile "Not a gzipped file"),
     {| fs := fs disk_with_old_file;
        stdout := stdout disk_with_old_file
                  ++ [RespStatus 200; RespHeaders "{}"] |},
     None).
Proof.
  apply (main_stops_on_unparsable_body sample_read_csv sample_tables
           sample_savefig env_html disk_with_old_file (page 200) (page 200));
    reflexivity.
Defined.


End MainProps.
